(** * Multi-agent invoice orchestration: consolidation, scoring and metrics

    A shallow embedding of the orchestration controller
    ([OrchestratedDocumentProcessor]) and of the agent registry
    ([AgentManager]), with the properties of the design specification
    settled against it.

    Modelling conventions.
    - A JavaScript value is a [JsValue]; numbers are the integers (the
      confidences, weights and counts of the controller are integers).
      The quotients the source forms, the weighted mean and the running
      averages of the registry, are exact rationals; the doubles of the
      source round to the same integer as long as the weighted sum stays
      below 2^52.
    - [Record<string, any>] is a finite map from strings to values; a
      property name that is also a member of [Object.prototype] (which a
      read of an empty object would find) is outside the model.
    - The completion backend, [JSON.parse] and the clock are not code of
      the repository: a backend is an oracle giving, for an agent and the
      number of calls that agent has already made, the outcome of
      [anthropic.messages.create] together with what [JSON.parse] makes of
      the cleaned text.  Prompts are not modelled: they only influence what
      the backend answers, and every theorem quantifies over all backends.
    - [Promise.all] is modelled by running the agents of a stage in the
      order in which the source lists them. *)

From Stdlib Require Import ZArith QArith Qround Qabs Lia Lqa.
From stdpp Require Import base gmap strings list fin_maps.

Local Open Scope string_scope.
Local Open Scope Z_scope.

(** ** JavaScript values *)

Module Js.

#[local] Set Warnings "-register-all".

Inductive JsValue : Type :=
  | JNull
  | JUndefined
  | JBool (b : bool)
  | JNum (n : Z)
  | JStr (s : string)
  | JArr (items : list JsValue)
  | JObj (props : gmap string JsValue).

(** ToBoolean: what [!v] and [v || d] test. *)
Definition truthy (v : JsValue) : bool :=
  match v with
  | JNull | JUndefined => false
  | JBool b => b
  | JNum n => negb (n =? 0)%Z
  | JStr s => negb (String.eqb s "")
  | JArr _ | JObj _ => true
  end.

(** [o[key]] on a record: a missing property reads as [undefined]. *)
Definition prop (o : gmap string JsValue) (key : string) : JsValue :=
  default JUndefined (o !! key).

(** [a || b]. *)
Definition or_else (a b : JsValue) : JsValue :=
  if truthy a then a else b.

End Js.
Export Js.

(** ** The agent registry and its metrics ([server/agentManager.ts]) *)

Module AgentManager.

Inductive AgentType := classification | extraction | validation | crosscheck.

(** [AgentConfig]; the free-text [description] is not modelled. *)
Record AgentConfig := {
  name : string;
  enabled : bool;
  specialization : list string;
  confidenceWeight : Q;
  timeout : Z;
  maxRetries : nat;
  type : AgentType
}.

Record AgentMetrics := {
  m_name : string;
  executions : Z;
  successRate : Q;
  averageConfidence : Q;
  averageExecutionTime : Q;
  lastExecution : option Z;
  errorCount : Z;
  m_specialization : list string
}.

Record SystemExecution := {
  timestamp : Z;
  documentId : string;
  agentsUsed : list string;
  finalConfidence : Z;
  iterationsUsed : nat;
  totalTime : Z
}.

Record AgentManager := {
  agentConfigs : gmap string AgentConfig;
  agentMetrics : gmap string AgentMetrics;
  executionHistory : list SystemExecution
}.

Definition defaultConfigs : list AgentConfig := [
  {| name := "classification_agent"; enabled := true;
     specialization := ["document_type"; "origin_detection"; "quality_assessment"];
     confidenceWeight := 1; timeout := 15000; maxRetries := 2;
     type := classification |};
  {| name := "structural_extraction_agent"; enabled := true;
     specialization := ["basic_fields"; "amounts"; "dates"; "parties"];
     confidenceWeight := 12 # 10; timeout := 20000; maxRetries := 2;
     type := extraction |};
  {| name := "metadata_agent"; enabled := true;
     specialization := ["file_analysis"; "context_inference"];
     confidenceWeight := 8 # 10; timeout := 5000; maxRetries := 1;
     type := classification |};
  {| name := "argentina_fiscal_agent"; enabled := true;
     specialization := ["argentina_fiscal"; "cuit_validation"; "cae_validation"];
     confidenceWeight := 15 # 10; timeout := 25000; maxRetries := 3;
     type := validation |};
  {| name := "international_trade_agent"; enabled := true;
     specialization := ["international_trade"; "hs_codes"; "incoterms"; "banking"];
     confidenceWeight := 13 # 10; timeout := 25000; maxRetries := 3;
     type := validation |};
  {| name := "conflict_resolution_agent"; enabled := true;
     specialization := ["conflict_resolution"; "data_validation"; "consensus_building"];
     confidenceWeight := 11 # 10; timeout := 30000; maxRetries := 2;
     type := crosscheck |};
  {| name := "cross_validation_agent"; enabled := true;
     specialization := ["final_validation"; "mathematical_coherence"; "data_integrity"];
     confidenceWeight := 14 # 10; timeout := 35000; maxRetries := 2;
     type := crosscheck |}
].

Definition freshMetrics (agentName : string) (spec : list string) : AgentMetrics :=
  {| m_name := agentName; executions := 0; successRate := 100;
     averageConfidence := 0; averageExecutionTime := 0;
     lastExecution := None; errorCount := 0; m_specialization := spec |}.

(** [initializeDefaultConfigs]: the constructor's [forEach]. *)
Definition initializeDefaultConfigs : AgentManager :=
  foldl (λ mgr config,
           {| agentConfigs := <[name config := config]> (agentConfigs mgr);
              agentMetrics :=
                <[name config := freshMetrics (name config) (specialization config)]>
                  (agentMetrics mgr);
              executionHistory := executionHistory mgr |})
        {| agentConfigs := ∅; agentMetrics := ∅; executionHistory := [] |}
        defaultConfigs.

(** The body of [recordAgentExecution] on the record it found; [now] stands
    for [new Date()]. *)
Definition updateMetrics (metrics : AgentMetrics) (success : bool)
    (confidence executionTime now : Z) : AgentMetrics :=
  let executions' := executions metrics + 1 in
  let averageConfidence' :=
    if success
    then ((averageConfidence metrics * inject_Z (executions' - 1)
           + inject_Z confidence) / inject_Z executions')%Q
    else averageConfidence metrics in
  let averageExecutionTime' :=
    if success
    then ((averageExecutionTime metrics * inject_Z (executions' - 1)
           + inject_Z executionTime) / inject_Z executions')%Q
    else averageExecutionTime metrics in
  let errorCount' :=
    if success then errorCount metrics else errorCount metrics + 1 in
  {| m_name := m_name metrics;
     executions := executions';
     successRate :=
       (inject_Z (executions' - errorCount') / inject_Z executions' * 100)%Q;
     averageConfidence := averageConfidence';
     averageExecutionTime := averageExecutionTime';
     lastExecution := Some now;
     errorCount := errorCount';
     m_specialization := m_specialization metrics |}.

Definition recordAgentExecution (mgr : AgentManager) (agentName : string)
    (success : bool) (confidence executionTime now : Z) : AgentManager :=
  match agentMetrics mgr !! agentName with
  | None => mgr
  | Some metrics =>
      {| agentConfigs := agentConfigs mgr;
         agentMetrics :=
           <[agentName := updateMetrics metrics success confidence executionTime now]>
             (agentMetrics mgr);
         executionHistory := executionHistory mgr |}
  end.

(** [history.slice(-n)]. *)
Definition slice_last {A} (n : nat) (l : list A) : list A :=
  drop (length l - n)%nat l.

Definition recordSystemExecution (mgr : AgentManager) (exec : SystemExecution)
    : AgentManager :=
  let history := (executionHistory mgr ++ [exec])%list in
  {| agentConfigs := agentConfigs mgr;
     agentMetrics := agentMetrics mgr;
     executionHistory :=
       if (100 <? length history)%nat then slice_last 100 history else history |}.

Definition getAgentMetrics (mgr : AgentManager) (agentName : string)
    : option AgentMetrics :=
  agentMetrics mgr !! agentName.

Definition getAgentConfig (mgr : AgentManager) (agentName : string)
    : option AgentConfig :=
  agentConfigs mgr !! agentName.

(** [Partial<AgentConfig>]: [None] is a key the update does not hold. *)
Record AgentConfigUpdates := {
  new_name : option string;
  new_enabled : option bool;
  new_specialization : option (list string);
  new_confidenceWeight : option Q;
  new_timeout : option Z;
  new_maxRetries : option nat;
  new_type : option AgentType
}.

(** [{ ...config, ...updates }] *)
Definition spread (config : AgentConfig) (updates : AgentConfigUpdates) : AgentConfig :=
  {| name := default (name config) (new_name updates);
     enabled := default (enabled config) (new_enabled updates);
     specialization := default (specialization config) (new_specialization updates);
     confidenceWeight := default (confidenceWeight config) (new_confidenceWeight updates);
     timeout := default (timeout config) (new_timeout updates);
     maxRetries := default (maxRetries config) (new_maxRetries updates);
     type := default (type config) (new_type updates) |}.

Definition updateAgentConfig (mgr : AgentManager) (agentName : string)
    (updates : AgentConfigUpdates) : bool * AgentManager :=
  match agentConfigs mgr !! agentName with
  | None => (false, mgr)
  | Some config =>
      (true,
       {| agentConfigs := <[agentName := spread config updates]> (agentConfigs mgr);
          agentMetrics := agentMetrics mgr;
          executionHistory := executionHistory mgr |})
  end.

Definition resetAgentMetrics (mgr : AgentManager) (agentName : string)
    : bool * AgentManager :=
  match agentConfigs mgr !! agentName with
  | None => (false, mgr)
  | Some config =>
      (true,
       {| agentConfigs := agentConfigs mgr;
          agentMetrics :=
            <[agentName := freshMetrics agentName (specialization config)]>
              (agentMetrics mgr);
          executionHistory := executionHistory mgr |})
  end.

(** [documentType] is the optional argument: [None] when it is left out. *)
Definition shouldExecuteAgent (mgr : AgentManager) (agentName : string)
    (documentType : option string) : bool :=
  match agentConfigs mgr !! agentName with
  | None => false
  | Some config =>
      if negb (enabled config) then false
      else if bool_decide (documentType = Some "argentina")
              && String.eqb agentName "international_trade_agent" then false
      else if bool_decide (documentType = Some "international")
              && String.eqb agentName "argentina_fiscal_agent" then false
      else true
  end.

(** [array.slice(start)] for an integer [start]: a negative start counts
    from the end. *)
Definition slice_from {A} (start : Z) (l : list A) : list A :=
  let len := Z.of_nat (length l) in
  let first := if start <? 0 then Z.max (len + start) 0 else Z.min start len in
  drop (Z.to_nat first) l.

(** [getExecutionHistory(limit)]; the default [limit] is 20. *)
Definition getExecutionHistory (mgr : AgentManager) (limit : Z)
    : list SystemExecution :=
  reverse (slice_from (- limit) (executionHistory mgr)).

(** [agentUsage.set(agent, (agentUsage.get(agent) || 0) + 1)] on a [Map],
    which keeps its keys in the order of their first insertion. *)
Fixpoint countUse (agent : string) (agentUsage : list (string * Z))
    : list (string * Z) :=
  match agentUsage with
  | [] => [(agent, 1)]
  | (a, n) :: rest =>
      if String.eqb a agent then (a, n + 1) :: rest
      else (a, n) :: countUse agent rest
  end.

(** [entries.sort(([,a], [,b]) => b - a)]: the sort is stable; it is
    modelled by a stable insertion sort, larger counts first. *)
Fixpoint insertByCount (entry : string * Z) (sorted : list (string * Z))
    : list (string * Z) :=
  match sorted with
  | [] => [entry]
  | e :: rest =>
      if snd e <=? snd entry then entry :: e :: rest
      else e :: insertByCount entry rest
  end.

Definition sortByCount (entries : list (string * Z)) : list (string * Z) :=
  foldr insertByCount [] entries.

(** [getSystemStats], without [systemUptime] (the clock). *)
Record SystemStats := {
  totalExecutions : nat;
  statsAverageConfidence : Q;
  averageProcessingTime : Q;
  mostUsedAgent : string
}.

Definition agentUsageOf (history : list SystemExecution) : list (string * Z) :=
  foldl (λ usage exec, foldl (λ usage agent, countUse agent usage) usage (agentsUsed exec))
        [] history.

Definition getSystemStats (mgr : AgentManager) : SystemStats :=
  let history := executionHistory mgr in
  let total := length history in
  let confidenceSum := foldl (λ sum exec, sum + finalConfidence exec) 0 history in
  let timeSum := foldl (λ sum exec, sum + totalTime exec) 0 history in
  {| totalExecutions := total;
     statsAverageConfidence :=
       if (0 <? total)%nat
       then (inject_Z confidenceSum / inject_Z (Z.of_nat total))%Q
       else 0%Q;
     averageProcessingTime :=
       if (0 <? total)%nat
       then (inject_Z timeSum / inject_Z (Z.of_nat total))%Q
       else 0%Q;
     mostUsedAgent :=
       match sortByCount (agentUsageOf history) with
       | (agent, _) :: _ => if String.eqb agent "" then "N/A" else agent
       | [] => "N/A"
       end |}.

End AgentManager.

(** ** The orchestration controller ([OrchestratedDocumentProcessor]) *)

Module Orchestrator.

(** [AgentResult]; the prompt texts it echoes are not modelled. *)
Record AgentResult := {
  agentName : string;
  extractedData : gmap string JsValue;
  confidence : Z;
  specialization : list string;
  conflicts : option (list string);
  suggestions : option (list string);
  rawResponse : option string;
  processingTime : option Z
}.

(** [IterationResult], without its three timestamps. *)
Record IterationResult := {
  iterationNumber : nat;
  agentResults : list AgentResult;
  consolidatedData : gmap string JsValue;
  overallConfidence : Z;
  requiresNextIteration : bool;
  reasonForNextIteration : option string
}.

Record Params := {
  documentId : string;
  mimeType : string;
  fileName : string
}.

(** *** Consolidation and scoring helpers *)

(** [value !== null && value !== undefined && value !== ''] *)
Definition nonEmpty (value : JsValue) : bool :=
  match value with
  | JNull | JUndefined => false
  | JStr s => negb (String.eqb s "")
  | _ => true
  end.

(** The body of the inner loop of [consolidateAgentResults]. *)
Definition mergeEntry (confidence : Z) (key : string) (value : JsValue)
    (consolidated : gmap string JsValue) : gmap string JsValue :=
  if nonEmpty value then
    if negb (truthy (prop consolidated key)) || (75 <? confidence)
    then <[key := value]> consolidated
    else consolidated
  else consolidated.

(** The inner loop: [for (const [key, value] of Object.entries(result.extractedData))]. *)
Definition mergeResult (consolidated : gmap string JsValue) (result : AgentResult)
    : gmap string JsValue :=
  map_fold (mergeEntry (confidence result)) consolidated (extractedData result).

Definition consolidateAgentResults (agentResults : list AgentResult)
    : gmap string JsValue :=
  foldl mergeResult ∅ agentResults.

(** [Math.round]: the nearest integer, a half going up. *)
Definition Math_round (x : Q) : Z := Qfloor (x + (1 # 2))%Q.

Definition weightedSum (agentResults : list AgentResult) : Z :=
  foldl (λ sum result, sum + confidence result * Z.of_nat (length (specialization result)))
        0 agentResults.

Definition totalWeight (agentResults : list AgentResult) : Z :=
  foldl (λ sum result, sum + Z.of_nat (length (specialization result)))
        0 agentResults.

(** When every specialization list is empty the source divides 0 by 0 and
    returns NaN; the quotient of the model is 0 there.  No agent of the
    controller returns an empty specialization list. *)
Definition calculateOverallConfidence (agentResults : list AgentResult) : Z :=
  if (length agentResults =? 0)%nat then 0
  else Math_round (inject_Z (weightedSum agentResults)
                   / inject_Z (totalWeight agentResults))%Q.

Definition hasConflicts (agentResults : list AgentResult) : bool :=
  existsb (λ result,
             match conflicts result with
             | Some cs => (0 <? length cs)%nat
             | None => false
             end) agentResults.

Definition identifyConflicts (agentResults : list AgentResult) : list string := [].

Definition criticalFields : list string :=
  ["totalAmount"; "invoiceNumber"; "providerName"; "customerName"].

Definition hasSignificantUncertainty (data : gmap string JsValue) : bool :=
  existsb (λ field,
             negb (truthy (prop data field))
             || match prop data field with JNull => true | _ => false end)
          criticalFields.

(** [v === s] for a string literal [s]. *)
Definition isString (v : JsValue) (s : string) : bool :=
  match v with JStr t => String.eqb t s | _ => false end.

(** *** Agent configurations ([setupAgentConfigurations]) *)

Definition agentConfigurations : list (string * list string) := [
  ("classification_agent",
     ["document_type"; "origin_detection"; "currency_detection"]);
  ("structural_extraction_agent",
     ["basic_fields"; "amounts"; "dates"; "addresses"]);
  ("metadata_agent",
     ["file_analysis"; "quality_assessment"; "context_inference"]);
  ("argentina_fiscal_agent",
     ["cuit"; "cae"; "iva_breakdown"; "condicion_fiscal"]);
  ("international_trade_agent",
     ["international_trade"; "hs_codes"; "incoterms"; "banking";
      "ein_detection"; "line_items"; "observations"]);
  ("cross_validation_agent",
     ["mathematical_validation"; "logical_coherence"; "cross_reference"])
].

(** [agentConfig.specializations || fallback]: an array is truthy, so the
    fallback is taken only for a name without configuration. *)
Definition specializationsOr (name : string) (fallback : list string) : list string :=
  match List.find (λ c, String.eqb (fst c) name) agentConfigurations with
  | Some c => snd c
  | None => fallback
  end.

(** *** The world the controller acts on *)

Record ApiCallLog := {
  log_agentName : string;
  log_response : string;
  log_timeTaken : Z
}.

(** [backendCalls] is a ghost trace: the agent names of the calls made to
    [anthropic.messages.create], oldest first. *)
Record World := {
  manager : AgentManager.AgentManager;
  apiCallLogs : list ApiCallLog;
  backendCalls : list string
}.

(** The outcome of one [anthropic.messages.create] as the agent sees it.
    [Rejected]: the call rejects (timeout, network, quota) or its first
    content block is not text.  [Replied text cleanText json]: the text of
    the reply, the same text trimmed and without its markdown fence, and
    what [JSON.parse] makes of the latter ([None]: it throws).  The parsed
    value is a JSON object, as [extractedData: Record<string, any>]
    declares; a reply that parses to another kind of value is outside the
    model. *)
Inductive Completion :=
  | Rejected (error : string)
  | Replied (text cleanText : string) (json : option (gmap string JsValue)).

Record Environment := {
  complete : string → nat → Completion;
  elapsed : string → Z;
  now : Z;
  runTime : Z
}.

Definition M (A : Type) : Type := World → A * World.

#[global] Instance M_ret : MRet M := λ A a w, (a, w).
#[global] Instance M_bind : MBind M :=
  λ A B f m w, let '(a, w') := m w in f a w'.

Definition callsOf (name : string) (w : World) : nat :=
  length (filter (λ n, n = name) (backendCalls w)).

Section Controller.

Variable env : Environment.

Definition messages_create (name : string) : M Completion :=
  λ w, (complete env name (callsOf name w),
        {| manager := manager w; apiCallLogs := apiCallLogs w;
           backendCalls := (backendCalls w ++ [name])%list |}).

Definition logApiCall (name response : string) (timeTaken : Z) : M unit :=
  λ w, (tt,
        {| manager := manager w;
           apiCallLogs :=
             (apiCallLogs w ++
              [{| log_agentName := name;
                  log_response :=
                    (String.substring 0 1000 response ++
                     (if (1000 <? String.length response)%nat then "..." else ""))%string;
                  log_timeTaken := timeTaken |}])%list;
           backendCalls := backendCalls w |}).

Definition recordAgentExecution (name : string) (success : bool)
    (confidence executionTime : Z) : M unit :=
  λ w, (tt,
        {| manager := AgentManager.recordAgentExecution (manager w) name success
                        confidence executionTime (now env);
           apiCallLogs := apiCallLogs w;
           backendCalls := backendCalls w |}).

Definition cleanAnthropicResponse (cleanText : string)
    (json : option (gmap string JsValue)) : gmap string JsValue :=
  match json with
  | Some parsed => parsed
  | None => {[ "error" := JStr "Failed to parse JSON";
               "rawResponse" := JStr cleanText ]}
  end.

(** [result.confidence || dflt], read as the number [AgentResult] declares:
    a truthy confidence that is not a number is outside the model. *)
Definition confidenceOr (result : gmap string JsValue) (dflt : Z) : Z :=
  match or_else (prop result "confidence") (JNum dflt) with
  | JNum n => n
  | _ => dflt
  end.

(** *** The agents

    Each agent is the [try] block followed by its [catch]: the [Rejected]
    branch is the [catch]. *)

Definition runClassificationAgent (params : Params) : M AgentResult :=
  let name := "classification_agent" in
  let executionTime := elapsed env name in
  c ← messages_create name;
  match c with
  | Replied text cleanText json =>
      let result := cleanAnthropicResponse cleanText json in
      let confidence := confidenceOr result 75 in
      logApiCall name text executionTime;;
      recordAgentExecution name true confidence executionTime;;
      mret {| agentName := name;
              extractedData := result;
              confidence := confidence;
              specialization :=
                specializationsOr name
                  ["document_type"; "origin_detection"; "quality_assessment"];
              conflicts := None;
              suggestions := None;
              rawResponse := Some text;
              processingTime := Some executionTime |}
  | Rejected error =>
      let confidence := 30 in
      recordAgentExecution name false confidence executionTime;;
      mret {| agentName := name;
              extractedData := {[ "documentType" := JStr "unknown";
                                  "documentOrigin" := JStr "unknown" ]};
              confidence := confidence;
              specialization :=
                specializationsOr name ["document_type"; "origin_detection"];
              conflicts := Some ["Classification failed"];
              suggestions := None;
              rawResponse := Some error;
              processingTime := Some executionTime |}
  end.

(** The structural agent parses the cleaned text itself, inside its [try]:
    a text that does not parse lands in the [catch] as a rejection does. *)
Definition runStructuralExtractionAgent (params : Params) : M AgentResult :=
  let name := "structural_extraction_agent" in
  let executionTime := elapsed env name in
  let failed :=
    let confidence := 40 in
    recordAgentExecution name false confidence executionTime;;
    mret {| agentName := name;
            extractedData := ∅;
            confidence := confidence;
            specialization := ["basic_fields"];
            conflicts := Some ["Structural extraction failed"];
            suggestions := None;
            rawResponse := None;
            processingTime := None |} in
  c ← messages_create name;
  match c with
  | Replied text cleanText (Some result) =>
      let confidence :=
        if String.eqb (mimeType params) "application/pdf" then 90 else 40 in
      recordAgentExecution name true confidence executionTime;;
      mret {| agentName := name;
              extractedData := result;
              confidence := confidence;
              specialization := ["basic_fields"; "amounts"; "dates"; "parties"];
              conflicts := None;
              suggestions := None;
              rawResponse := None;
              processingTime := None |}
  | Replied _ _ None => failed
  | Rejected _ => failed
  end.

(** [fileName.includes(needle)] *)
Fixpoint includes (needle s : string) : bool :=
  String.prefix needle s
  || match s with
     | EmptyString => false
     | String _ rest => includes needle rest
     end.

Definition runMetadataAgent (params : Params) : M AgentResult :=
  let inferredData : gmap string JsValue :=
    if includes "1A3938" (fileName params) || includes "factura" (fileName params)
    then {[ "documentOrigin" := JStr "argentina";
            "documentType" := JStr "factura_a" ]}
    else if includes "freight" (fileName params) || includes "Baires" (fileName params)
    then {[ "documentOrigin" := JStr "international";
            "documentType" := JStr "international_invoice" ]}
    else ∅ in
  mret {| agentName := "metadata_agent";
          extractedData := inferredData;
          confidence := 60;
          specialization := ["file_analysis"; "context_inference"];
          conflicts := None;
          suggestions := None;
          rawResponse := None;
          processingTime := None |}.

Definition runArgentineFiscalAgent (params : Params) (context : IterationResult)
    : M AgentResult :=
  let name := "argentina_fiscal_agent" in
  let executionTime := elapsed env name in
  c ← messages_create name;
  match c with
  | Replied text cleanText json =>
      let result := cleanAnthropicResponse cleanText json in
      let confidence := confidenceOr result 90 in
      logApiCall name text executionTime;;
      mret {| agentName := name;
              extractedData := result;
              confidence := confidence;
              specialization :=
                specializationsOr name
                  ["argentina_fiscal"; "cuit_validation"; "cae_validation"];
              conflicts := None;
              suggestions := Some ["Validar CAE con AFIP"; "Verificar vigencia de CUIT"];
              rawResponse := Some text;
              processingTime := Some executionTime |}
  | Rejected error =>
      logApiCall name (if String.eqb error "" then "Error" else error) executionTime;;
      mret {| agentName := name;
              extractedData := ∅;
              confidence := 50;
              specialization := specializationsOr name ["argentina_fiscal"];
              conflicts := Some ["Fiscal validation failed"];
              suggestions := None;
              rawResponse := Some error;
              processingTime := Some executionTime |}
  end.

Definition runInternationalTradeAgent (params : Params) (context : IterationResult)
    : M AgentResult :=
  let name := "international_trade_agent" in
  let executionTime := elapsed env name in
  c ← messages_create name;
  match c with
  | Replied text cleanText json =>
      let result := cleanAnthropicResponse cleanText json in
      let confidence := confidenceOr result 88 in
      logApiCall name text executionTime;;
      mret {| agentName := name;
              extractedData := result;
              confidence := confidence;
              specialization :=
                specializationsOr name
                  ["international_trade"; "hs_codes"; "incoterms"; "banking";
                   "ein_detection"; "line_items"; "observations"];
              conflicts := None;
              suggestions := None;
              rawResponse := Some text;
              processingTime := Some executionTime |}
  | Rejected error =>
      logApiCall name (if String.eqb error "" then "Error" else error) executionTime;;
      mret {| agentName := name;
              extractedData := ∅;
              confidence := 45;
              specialization := specializationsOr name ["international_trade"];
              conflicts := Some ["Trade data extraction failed"];
              suggestions := None;
              rawResponse := Some error;
              processingTime := Some executionTime |}
  end.

Definition runConflictResolutionAgent (params : Params) (context : IterationResult)
    (conflictList : list string) : M AgentResult :=
  let name := "conflict_resolution_agent" in
  c ← messages_create name;
  match c with
  | Replied text cleanText json =>
      let result := cleanAnthropicResponse cleanText json in
      mret {| agentName := name;
              extractedData := result;
              confidence := 95;
              specialization :=
                ["conflict_resolution"; "data_validation"; "consensus_building"];
              conflicts := None;
              suggestions := None;
              rawResponse := None;
              processingTime := None |}
  | Rejected error =>
      mret {| agentName := name;
              extractedData := ∅;
              confidence := 60;
              specialization := ["conflict_resolution"];
              conflicts := Some ["Conflict resolution failed"];
              suggestions := None;
              rawResponse := None;
              processingTime := None |}
  end.

(** [result.finalOptimizedData || result], read as the record
    [extractedData] declares: a truthy [finalOptimizedData] that is not an
    object is outside the model and is read as a record without
    properties. *)
Definition finalOptimizedDataOr (result : gmap string JsValue) : gmap string JsValue :=
  let v := prop result "finalOptimizedData" in
  if truthy v then match v with JObj o => o | _ => ∅ end else result.

Definition runCrossValidationAgent (params : Params) (context : IterationResult)
    : M AgentResult :=
  let name := "cross_validation_agent" in
  let executionTime := elapsed env name in
  c ← messages_create name;
  match c with
  | Replied text cleanText json =>
      let result := cleanAnthropicResponse cleanText json in
      let confidence := confidenceOr result 98 in
      logApiCall name text executionTime;;
      mret {| agentName := name;
              extractedData := finalOptimizedDataOr result;
              confidence := confidence;
              specialization :=
                specializationsOr name
                  ["final_validation"; "mathematical_coherence"; "data_integrity"];
              conflicts := None;
              suggestions := None;
              rawResponse := Some text;
              processingTime := Some executionTime |}
  | Rejected error =>
      logApiCall name (if String.eqb error "" then "Error" else error) executionTime;;
      mret {| agentName := name;
              extractedData := consolidatedData context;
              confidence := 80;
              specialization := specializationsOr name ["final_validation"];
              conflicts := Some ["Final validation had issues but data preserved"];
              suggestions := None;
              rawResponse := Some error;
              processingTime := Some executionTime |}
  end.

(** *** The three stages *)

(** [await Promise.all(tasks)], the tasks taken in order. *)
Fixpoint Promise_all {A} (tasks : list (M A)) : M (list A) :=
  match tasks with
  | [] => mret []
  | task :: rest =>
      a ← task;
      others ← Promise_all rest;
      mret (a :: others)
  end.

Definition runIteration1_BaseAnalysis (params : Params) : M IterationResult :=
  results ← Promise_all [runClassificationAgent params;
                         runStructuralExtractionAgent params;
                         runMetadataAgent params];
  let consolidated := consolidateAgentResults results in
  let overall := calculateOverallConfidence results in
  mret {| iterationNumber := 1;
          agentResults := results;
          consolidatedData := consolidated;
          overallConfidence := overall;
          requiresNextIteration := (overall <? 85) || hasConflicts results;
          reasonForNextIteration :=
            Some (if overall <? 85
                  then "Confianza insuficiente, requiere refinamiento especializado"
                  else "Conflictos detectados entre agentes, requiere validación") |}.

Definition specializationAgents (params : Params) (previousIteration : IterationResult)
    : list (M AgentResult) :=
  let documentType := prop (consolidatedData previousIteration) "documentOrigin" in
  let conflictList := identifyConflicts (agentResults previousIteration) in
  ((if isString documentType "argentina" || isString documentType "unknown"
    then [runArgentineFiscalAgent params previousIteration] else []) ++
   (if isString documentType "international" || isString documentType "unknown"
    then [runInternationalTradeAgent params previousIteration] else []) ++
   (if (0 <? length conflictList)%nat
    then [runConflictResolutionAgent params previousIteration conflictList] else []))%list.

Definition runIteration2_SpecializedRefinement (params : Params)
    (previousIteration : IterationResult) : M IterationResult :=
  specializedResults ← Promise_all (specializationAgents params previousIteration);
  let allResults := (agentResults previousIteration ++ specializedResults)%list in
  let consolidated := consolidateAgentResults allResults in
  let overall := calculateOverallConfidence specializedResults in
  mret {| iterationNumber := 2;
          agentResults := specializedResults;
          consolidatedData := consolidated;
          overallConfidence := overall;
          requiresNextIteration :=
            (overall <? 95) && hasSignificantUncertainty consolidated;
          reasonForNextIteration :=
            Some "Verificación final para campos de alta importancia" |}.

Definition runIteration3_FinalVerification (params : Params)
    (previousIteration : IterationResult) : M IterationResult :=
  verificationResult ← runCrossValidationAgent params previousIteration;
  mret {| iterationNumber := 3;
          agentResults := [verificationResult];
          consolidatedData := extractedData verificationResult;
          overallConfidence := confidence verificationResult;
          requiresNextIteration := false;
          reasonForNextIteration := None |}.

(** *** The run *)

Record ProcessingMetrics := {
  totalTime : Z;
  iterationsUsed : nat;
  agentsInvolved : list string;
  finalConfidence : Z
}.

Record OrchestratedResult := {
  iterations : list IterationResult;
  finalResult : gmap string JsValue;
  processingMetrics : ProcessingMetrics;
  resultApiCallLogs : list ApiCallLog
}.

(** [results.forEach(r => agentsUsed.add(r.agentName))] on a [Set] kept in
    insertion order. *)
Definition addAgents (agentsUsed : list string) (results : list AgentResult)
    : list string :=
  foldl (λ used r, if decide (agentName r ∈ used) then used
                   else (used ++ [agentName r])%list)
        agentsUsed results.

Definition recordSystemExecution (docId : string) (used : list string)
    (final : Z) (count : nat) (total : Z) : M unit :=
  λ w, (tt,
        {| manager :=
             AgentManager.recordSystemExecution (manager w)
               {| AgentManager.timestamp := now env;
                  AgentManager.documentId := docId;
                  AgentManager.agentsUsed := used;
                  AgentManager.finalConfidence := final;
                  AgentManager.iterationsUsed := count;
                  AgentManager.totalTime := total |};
           apiCallLogs := apiCallLogs w;
           backendCalls := backendCalls w |}).

Definition getApiCallLogs : M (list ApiCallLog) := λ w, (apiCallLogs w, w).

(** [processDocumentOrchestrated] up to its bookkeeping: the iterations
    pushed, in order, and [finalIteration]. *)
Definition runIterations (params : Params)
    : M (list IterationResult * IterationResult) :=
  iteration1 ← runIteration1_BaseAnalysis params;
  if requiresNextIteration iteration1 && (overallConfidence iteration1 <? 90) then
    iteration2 ← runIteration2_SpecializedRefinement params iteration1;
    if requiresNextIteration iteration2 && (overallConfidence iteration2 <? 95) then
      iteration3 ← runIteration3_FinalVerification params iteration2;
      mret ([iteration1; iteration2; iteration3], iteration3)
    else mret ([iteration1; iteration2], iteration2)
  else mret ([iteration1], iteration1).

Definition processDocumentOrchestrated (params : Params) : M OrchestratedResult :=
  '(its, finalIteration) ← runIterations params;
  let allAgentsUsed := foldl (λ used it, addAgents used (agentResults it)) [] its in
  recordSystemExecution (documentId params) allAgentsUsed
    (overallConfidence finalIteration) (length its) (runTime env);;
  logs ← getApiCallLogs;
  mret {| iterations := its;
          finalResult := consolidatedData finalIteration;
          processingMetrics :=
            {| totalTime := runTime env;
               iterationsUsed := length its;
               agentsInvolved := allAgentsUsed;
               finalConfidence := overallConfidence finalIteration |};
          resultApiCallLogs := logs |}.

End Controller.

(** The state a fresh process starts from. *)
Definition initialWorld : World :=
  {| manager := AgentManager.initializeDefaultConfigs;
     apiCallLogs := [];
     backendCalls := [] |}.

End Orchestrator.

Import Orchestrator.

(** ** Vocabulary of the statements *)

(** The condition under which the loop body stores [v] under [k]. *)
Definition accepts (conf : Z) (c : gmap string JsValue) (k : string) (v : JsValue)
    : bool :=
  nonEmpty v && (negb (truthy (prop c k)) || (75 <? conf)).

(** A result carries a field when it holds a non-null, non-empty value
    for it. *)
Definition carries (r : AgentResult) (k : string) : bool :=
  match extractedData r !! k with
  | Some v => nonEmpty v
  | None => false
  end.

(** The property of the invariant on fallback data: an empty mapping, or
    one marked with an [error] property. *)
Definition emptyOrErrorMarked (data : gmap string JsValue) : Prop :=
  data = ∅ ∨ is_Some (data !! "error").

(** What applying an agent's retry budget would show in the trace of
    backend calls when every attempt fails: the first attempt and then
    [maxRetries] more. *)
Definition retryBudgetApplied (name : string) (before after : World) : Prop :=
  ∃ config, AgentManager.agentConfigs (manager before) !! name = Some config
    ∧ callsOf name after
      = (callsOf name before + 1 + AgentManager.maxRetries config)%nat.

(** The weighted mean of the formula, as sums over the list. *)
Definition sumWeighted (rs : list AgentResult) : Z :=
  foldr Z.add 0 (map (λ r, confidence r * Z.of_nat (length (specialization r))) rs).

Definition sumWeights (rs : list AgentResult) : Z :=
  foldr Z.add 0 (map (λ r, Z.of_nat (length (specialization r))) rs).

(** The mean successful confidence of a history of calls, each a pair of
    the success flag and the confidence recorded. *)
Definition meanSuccessfulConfidence (calls : list (bool * Z)) : Q :=
  let successes := filter (λ c, fst c = true) calls in
  let total := foldr Z.add 0 (map snd successes) in
  (inject_Z total / inject_Z (Z.of_nat (length successes)))%Q.

(** A result as every agent of the controller returns it when the reported
    confidences are percentages: a confidence in [0, 100] and at least one
    specialization tag. *)
Definition percentage (r : AgentResult) : Prop :=
  0 ≤ confidence r ≤ 100 ∧ specialization r ≠ [].

(** A backend whose replies report, when they hold a [confidence] property,
    an integer percentage. *)
Definition reportsPercentages (env : Environment) : Prop :=
  ∀ name n text cleanText parsed v,
    complete env name n = Replied text cleanText (Some parsed) →
    parsed !! "confidence" = Some v → ∃ c, v = JNum c ∧ 0 ≤ c ≤ 100.

(** What a computation returns, whatever the world it starts from. *)
Definition returns {A} (m : M A) (P : A → Prop) : Prop := ∀ w, P (fst (m w)).

(** The continuation rule of Stage 1 in the words of the specification,
    and with the guard the controller adds. *)
Definition stage2Rule (its : list IterationResult) : Prop :=
  ∃ it1, its !! 0%nat = Some it1
    ∧ ((2 ≤ length its)%nat
       ↔ overallConfidence it1 < 85 ∨ hasConflicts (agentResults it1) = true).

Definition stage2RuleWithGuard (its : list IterationResult) : Prop :=
  ∃ it1, its !! 0%nat = Some it1
    ∧ ((2 ≤ length its)%nat
       ↔ overallConfidence it1 < 85
         ∨ (hasConflicts (agentResults it1) = true ∧ overallConfidence it1 < 90)).

(** The invariant on consecutive iterations in the words of the
    specification: nothing is dropped, and a value is replaced only by a
    non-empty value of a result at least as confident as those that gave
    the earlier value. *)
Definition noFieldDropped (earlier later : IterationResult) : Prop :=
  ∀ k, is_Some (consolidatedData earlier !! k) → is_Some (consolidatedData later !! k).

Definition replacedOnlyByHigherConfidence (earlier later : IterationResult) : Prop :=
  ∀ k v v',
    consolidatedData earlier !! k = Some v →
    consolidatedData later !! k = Some v' → v' ≠ v →
    ∃ r', r' ∈ agentResults later ∧ extractedData r' !! k = Some v'
          ∧ nonEmpty v' = true
          ∧ ∀ r, r ∈ agentResults earlier → extractedData r !! k = Some v →
                 confidence r ≤ confidence r'.

(** The six agents that call the backend, and the constants of their
    [catch] blocks. *)
Inductive Agent :=
  | Classification | Structural | ArgentineFiscal | InternationalTrade
  | ConflictResolution | CrossValidation.

Definition nameOf (a : Agent) : string :=
  match a with
  | Classification => "classification_agent"
  | Structural => "structural_extraction_agent"
  | ArgentineFiscal => "argentina_fiscal_agent"
  | InternationalTrade => "international_trade_agent"
  | ConflictResolution => "conflict_resolution_agent"
  | CrossValidation => "cross_validation_agent"
  end.

Definition invoke (env : Environment) (a : Agent) (params : Params)
    (context : IterationResult) : M AgentResult :=
  match a with
  | Classification => runClassificationAgent env params
  | Structural => runStructuralExtractionAgent env params
  | ArgentineFiscal => runArgentineFiscalAgent env params context
  | InternationalTrade => runInternationalTradeAgent env params context
  | ConflictResolution =>
      runConflictResolutionAgent env params context
        (identifyConflicts (agentResults context))
  | CrossValidation => runCrossValidationAgent env params context
  end.

Definition fallbackConfidence (a : Agent) : Z :=
  match a with
  | Classification => 30
  | Structural => 40
  | ArgentineFiscal => 50
  | InternationalTrade => 45
  | ConflictResolution => 60
  | CrossValidation => 80
  end.

Definition fallbackData (a : Agent) (context : IterationResult)
    : gmap string JsValue :=
  match a with
  | Classification =>
      {[ "documentType" := JStr "unknown"; "documentOrigin" := JStr "unknown" ]}
  | CrossValidation => consolidatedData context
  | _ => ∅
  end.

(** ** Concrete documents, backends and results *)

Module Scenarios.

Definition invoicePdf : Params :=
  {| documentId := "doc-1"; mimeType := "application/pdf"; fileName := "scan-0042.pdf" |}.

Definition environment (backend : string → nat → Completion) : Environment :=
  {| complete := backend; elapsed := λ _, 1200; now := 1700000000000; runTime := 5000 |}.

(** The double quote, for the JSON texts below. *)
Definition dq : string :=
  String (Ascii.Ascii false true false false false true false false) "".

Definition key (k : string) : string := (dq ++ k ++ dq)%string.

Definition timeout_error : Completion := Rejected "Error: Request timed out.".

(** Every call rejects. *)
Definition backendDown : string → nat → Completion := λ _ _, timeout_error.

(** The classification agent reports a confidence of 126 and the structural
    call times out. *)
Definition overconfidentClassifier : string → nat → Completion :=
  λ name _,
    if String.eqb name "classification_agent"
    then let text := ("{" ++ key "confidence" ++ ": 126}")%string in
         Replied text text (Some {[ "confidence" := JNum 126 ]})
    else timeout_error.

(** The classification agent reports a confidence of 150 and the structural
    agent answers an empty object. *)
Definition confidence150 : string → nat → Completion :=
  λ name _,
    if String.eqb name "classification_agent"
    then let text := ("{" ++ key "confidence" ++ ": 150}")%string in
         Replied text text (Some {[ "confidence" := JNum 150 ]})
    else if String.eqb name "structural_extraction_agent"
    then Replied "{}" "{}" (Some ∅)
    else timeout_error.

(** Only the cross-validation agent is answered, with final data that
    holds the total alone. *)
Definition onlyValidatorAnswers : string → nat → Completion :=
  λ name _,
    if String.eqb name "cross_validation_agent"
    then let text := ("{" ++ key "finalOptimizedData" ++ ": {" ++ key "totalAmount"
                      ++ ": 100}, " ++ key "confidence" ++ ": 95}")%string in
         Replied text text
           (Some {[ "finalOptimizedData" := JObj {[ "totalAmount" := JNum 100 ]};
                    "confidence" := JNum 95 ]})
    else timeout_error.

(** Stage 1 answers; the fiscal and the cross-validation calls time out. *)
Definition validatorsDown : string → nat → Completion :=
  λ name _,
    if String.eqb name "classification_agent"
    then let text := ("{" ++ key "documentOrigin" ++ ": " ++ key "argentina" ++ ", "
                      ++ key "confidence" ++ ": 80}")%string in
         Replied text text
           (Some {[ "documentOrigin" := JStr "argentina"; "confidence" := JNum 80 ]})
    else if String.eqb name "structural_extraction_agent"
    then let text := ("{" ++ key "invoiceNumber" ++ ": " ++ key "0001-00001234" ++ "}")%string in
         Replied text text (Some {[ "invoiceNumber" := JStr "0001-00001234" ]})
    else timeout_error.

(** Stage 1 answers with an invoice number at confidence 90; the fiscal
    agent answers another number and reports a confidence of 80. *)
Definition fiscalOverrides : string → nat → Completion :=
  λ name _,
    if String.eqb name "classification_agent"
    then let text := ("{" ++ key "documentOrigin" ++ ": " ++ key "argentina" ++ ", "
                      ++ key "confidence" ++ ": 70}")%string in
         Replied text text
           (Some {[ "documentOrigin" := JStr "argentina"; "confidence" := JNum 70 ]})
    else if String.eqb name "structural_extraction_agent"
    then let text := ("{" ++ key "invoiceNumber" ++ ": " ++ key "0001-00001234" ++ "}")%string in
         Replied text text (Some {[ "invoiceNumber" := JStr "0001-00001234" ]})
    else if String.eqb name "argentina_fiscal_agent"
    then let text := ("{" ++ key "invoiceNumber" ++ ": " ++ key "0001-00009999" ++ ", "
                      ++ key "confidence" ++ ": 80}")%string in
         Replied text text
           (Some {[ "invoiceNumber" := JStr "0001-00009999"; "confidence" := JNum 80 ]})
    else timeout_error.

(** Every agent is answered with prose instead of JSON. *)
Definition prose : string := "Lo siento, no puedo leer este documento.".

Definition answersProse : string → nat → Completion :=
  λ _ _, Replied prose prose None.

(** The first classification call times out, the second reports 90. *)
Definition failsThenAnswers : string → nat → Completion :=
  λ name attempt,
    match attempt with
    | O => timeout_error
    | S _ => let text := ("{" ++ key "confidence" ++ ": 90}")%string in
             Replied text text (Some {[ "confidence" := JNum 90 ]})
    end.

(** The history of calls that backend gives the classification agent: the
    success flag and the confidence recorded for each. *)
Definition failedThenSucceeded : list (bool * Z) := [(false, 30); (true, 90)].

Definition result (name : string) (data : gmap string JsValue) (conf : Z)
    (tags : list string) : AgentResult :=
  {| agentName := name; extractedData := data; confidence := conf;
     specialization := tags; conflicts := None; suggestions := None;
     rawResponse := None; processingTime := None |}.

(** A fiscal result of confidence 90 with a VAT amount of 0, and a trade
    result of confidence 60 with another amount. *)
Definition fiscalZeroVat : AgentResult :=
  result "argentina_fiscal_agent" {[ "ivaAmount" := JNum 0 ]} 90
    ["cuit"; "cae"; "iva_breakdown"; "condicion_fiscal"].

Definition tradeLowConfidence : AgentResult :=
  result "international_trade_agent" {[ "ivaAmount" := JNum 21 ]} 60
    ["international_trade"].

(** Scenario A of the design notes. *)
Definition scenarioA : list AgentResult := [
  result "classification_agent"
    {[ "documentType" := JStr "factura_a"; "documentOrigin" := JStr "argentina" ]} 90
    ["document_type"; "origin_detection"; "currency_detection"];
  result "structural_extraction_agent"
    {[ "invoiceNumber" := JStr "0001-00001234"; "totalAmount" := JNum 30250 ]} 90
    ["basic_fields"; "amounts"; "dates"; "parties"];
  result "metadata_agent" ∅ 60 ["file_analysis"; "context_inference"]
].

Definition emptyContext : IterationResult :=
  {| iterationNumber := 2; agentResults := [];
     consolidatedData := {[ "invoiceNumber" := JStr "0001-00001234" ]};
     overallConfidence := 50; requiresNextIteration := true;
     reasonForNextIteration := None |}.

End Scenarios.

(** ** Vocabulary for the effects of the controller *)

(** A computation whose final world is always related to its initial one. *)
Definition steps (R : World → World → Prop) {A} (m : M A) : Prop :=
  ∀ w, R w (snd (m w)).

(** The logs only grow. *)
Definition logsExtended (w w' : World) : Prop :=
  apiCallLogs w `prefix_of` apiCallLogs w'.

(** A logged response is cut to 1000 characters and three dots. *)
Definition logsBounded (w : World) : Prop :=
  Forall (λ entry, (String.length (log_response entry) ≤ 1003)%nat) (apiCallLogs w).

Definition keepsLogsBounded (w w' : World) : Prop :=
  logsBounded w → logsBounded w'.

(** The registry is left as it was. *)
Definition registryUntouched (w w' : World) : Prop := manager w' = manager w.

(** Two worlds that differ in the registry at most. *)
Definition sameTrace (w w' : World) : Prop :=
  apiCallLogs w = apiCallLogs w' ∧ backendCalls w = backendCalls w'.

(** A computation that does not read the registry. *)
Definition ignoresRegistry {A} (m : M A) : Prop :=
  ∀ w w', sameTrace w w' →
    fst (m w) = fst (m w') ∧ sameTrace (snd (m w)) (snd (m w')).

Definition withManager (w : World) (mgr : AgentManager.AgentManager) : World :=
  {| manager := mgr; apiCallLogs := apiCallLogs w; backendCalls := backendCalls w |}.

(** The names Stage 2 selects for a classified origin. *)
Definition carriesOrigin (data : gmap string JsValue) (origin : string) : Prop :=
  data !! "documentOrigin" = Some (JStr origin).

(** ** Vocabulary for the registry *)

(** One recorded execution: the arguments of [recordAgentExecution]. *)
Record Call := {
  call_agent : string;
  call_success : bool;
  call_confidence : Z;
  call_time : Z;
  call_at : Z
}.

Definition recordCall (mgr : AgentManager.AgentManager) (c : Call)
    : AgentManager.AgentManager :=
  AgentManager.recordAgentExecution mgr (call_agent c) (call_success c)
    (call_confidence c) (call_time c) (call_at c).

Definition recordCalls (mgr : AgentManager.AgentManager) (calls : list Call)
    : AgentManager.AgentManager :=
  foldl recordCall mgr calls.

Definition callsOfAgent (agent : string) (calls : list Call) : list Call :=
  filter (λ c, call_agent c = agent) calls.

Definition failedCalls (calls : list Call) : list Call :=
  filter (λ c, call_success c = false) calls.

(** The state of an agent's metrics after a list of recorded calls. *)
Definition countsCalls (agent : string) (calls : list Call)
    (m : AgentManager.AgentMetrics) : Prop :=
  AgentManager.executions m = Z.of_nat (length (callsOfAgent agent calls))
  ∧ AgentManager.errorCount m
    = Z.of_nat (length (failedCalls (callsOfAgent agent calls)))
  ∧ (0 <= AgentManager.successRate m <= 100)%Q.

Definition sumZ (l : list Z) : Z := foldr Z.add 0 l.

(** How often the executions of a history name an agent. *)
Definition uses (agent : string) (history : list AgentManager.SystemExecution) : Z :=
  sumZ (map (λ exec,
               Z.of_nat (length (filter (λ a, a = agent) (AgentManager.agentsUsed exec))))
            history).

(** The count a usage table holds for an agent, 0 when it has none. *)
Fixpoint getCount (agent : string) (usage : list (string * Z)) : Z :=
  match usage with
  | [] => 0
  | (a, n) :: rest => if String.eqb a agent then n else getCount agent rest
  end.

(** The first entry of a list bounds the counts of the others. *)
Definition headIsLargest (l : list (string * Z)) : Prop :=
  match l with
  | [] => True
  | e :: rest => Forall (λ e', snd e' ≤ snd e) rest
  end.

Definition disable : AgentManager.AgentConfigUpdates :=
  {| AgentManager.new_name := None; AgentManager.new_enabled := Some false;
     AgentManager.new_specialization := None;
     AgentManager.new_confidenceWeight := None; AgentManager.new_timeout := None;
     AgentManager.new_maxRetries := None; AgentManager.new_type := None |}.

(** Concrete calls and histories for the registry. *)
Module RegistryScenarios.

Definition call (agent : string) (success : bool) (confidence : Z) : Call :=
  {| call_agent := agent; call_success := success; call_confidence := confidence;
     call_time := 1200; call_at := 1700000000000 |}.

Definition succeededTwice : list Call :=
  [call "classification_agent" true 80;
   call "structural_extraction_agent" false 40;
   call "classification_agent" true 90].

Definition execution (doc : string) (agents : list string) (final : Z)
    : AgentManager.SystemExecution :=
  {| AgentManager.timestamp := 1700000000000; AgentManager.documentId := doc;
     AgentManager.agentsUsed := agents; AgentManager.finalConfidence := final;
     AgentManager.iterationsUsed := 1%nat; AgentManager.totalTime := 5000 |}.

Definition threeRuns : list AgentManager.SystemExecution :=
  [execution "doc-1" ["classification_agent"; "metadata_agent"] 92;
   execution "doc-2" ["metadata_agent"; "classification_agent";
                      "argentina_fiscal_agent"] 80;
   execution "doc-3" ["metadata_agent"] 98].

Definition registryWith (history : list AgentManager.SystemExecution)
    : AgentManager.AgentManager :=
  {| AgentManager.agentConfigs :=
       AgentManager.agentConfigs AgentManager.initializeDefaultConfigs;
     AgentManager.agentMetrics :=
       AgentManager.agentMetrics AgentManager.initializeDefaultConfigs;
     AgentManager.executionHistory := history |}.

End RegistryScenarios.

Import Scenarios.

(** Unfolds the monad of the controller. *)
Ltac step :=
  unfold mbind, M_bind, mret, M_ret, messages_create, logApiCall,
    recordAgentExecution, Orchestrator.recordSystemExecution, getApiCallLogs;
  simpl.

(** * Theorems *)

(** ** Properties of consolidation *)

Section Merge.

Implicit Types (c : gmap string JsValue) (r : AgentResult) (k : string).

Lemma lookup_mergeResult c r k :
  mergeResult c r !! k =
  match extractedData r !! k with
  | Some v => if accepts (confidence r) c k v then Some v else c !! k
  | None => c !! k
  end.
Proof.
  unfold mergeResult. revert k.
  apply (map_fold_weak_ind (λ acc (m : gmap string JsValue), ∀ k,
    acc !! k = match m !! k with
               | Some v => if accepts (confidence r) c k v then Some v else c !! k
               | None => c !! k
               end)).
  - intros k. by rewrite lookup_empty.
  - intros i x m acc Hi IH k. unfold mergeEntry.
    assert (prop acc i = prop c i) as Hp.
    { unfold prop. by rewrite IH, Hi. }
    rewrite Hp. destruct (decide (i = k)) as [->|Hne].
    + rewrite lookup_insert_eq. unfold accepts.
      destruct (nonEmpty x); simpl.
      * destruct (negb (truthy (prop c k)) || (75 <? confidence r)).
        -- by rewrite lookup_insert_eq.
        -- by rewrite IH, Hi.
      * by rewrite IH, Hi.
    + rewrite (lookup_insert_ne m) by done.
      destruct (nonEmpty x); [|apply IH].
      destruct (negb (truthy (prop c i)) || (75 <? confidence r)); [|apply IH].
      rewrite lookup_insert_ne by done. apply IH.
Qed.

Lemma mergeResult_not_carried c r k :
  carries r k = false → mergeResult c r !! k = c !! k.
Proof.
  unfold carries. rewrite lookup_mergeResult.
  destruct (extractedData r !! k) as [v|]; [|done].
  unfold accepts. by intros ->.
Qed.

Lemma mergeResult_high c r k v :
  extractedData r !! k = Some v → nonEmpty v = true → 75 < confidence r →
  mergeResult c r !! k = Some v.
Proof.
  intros Hv Hne Hc. rewrite lookup_mergeResult, Hv. unfold accepts.
  rewrite Hne. replace (75 <? confidence r) with true by (symmetry; lia).
  by rewrite orb_true_r.
Qed.

Lemma mergeResult_absent c r k v :
  c !! k = None → extractedData r !! k = Some v → nonEmpty v = true →
  mergeResult c r !! k = Some v.
Proof.
  intros Hk Hv Hne. rewrite lookup_mergeResult, Hv. unfold accepts, prop.
  by rewrite Hne, Hk.
Qed.

(** A truthy running value survives a result of confidence at most 75. *)
Lemma mergeResult_low_keeps c r k v :
  c !! k = Some v → truthy v = true → confidence r ≤ 75 →
  mergeResult c r !! k = Some v.
Proof.
  intros Hk Ht Hc. rewrite lookup_mergeResult.
  destruct (extractedData r !! k) as [w|]; [|done].
  unfold accepts, prop. rewrite Hk. simpl. rewrite Ht.
  replace (75 <? confidence r) with false by (symmetry; lia).
  by rewrite andb_false_r.
Qed.

Lemma mergeResult_is_Some c r k :
  is_Some (c !! k) → is_Some (mergeResult c r !! k).
Proof.
  intros Hk. rewrite lookup_mergeResult.
  destruct (extractedData r !! k) as [v|]; [|done].
  by destruct (accepts _ _ _ _).
Qed.

Lemma foldl_mergeResult_is_Some c (rs : list AgentResult) k :
  is_Some (c !! k) → is_Some (foldl mergeResult c rs !! k).
Proof.
  revert c. induction rs as [|r rs IH]; intros c Hk; [done|].
  simpl. by apply IH, mergeResult_is_Some.
Qed.

Lemma foldl_mergeResult_not_carried c (rs : list AgentResult) k :
  Forall (λ r, carries r k = false) rs →
  foldl mergeResult c rs !! k = c !! k.
Proof.
  revert c. induction rs as [|r rs IH]; intros c Hrs; [done|].
  inversion Hrs; subst. simpl. rewrite IH by done.
  by apply mergeResult_not_carried.
Qed.

(** What a fold leaves under a key that held a truthy value: the value
    itself, unless a result of confidence above 75 carried the key. *)
Lemma foldl_mergeResult_truthy c (rs : list AgentResult) k v :
  c !! k = Some v → truthy v = true →
  foldl mergeResult c rs !! k = Some v
  ∨ ∃ r, r ∈ rs ∧ 75 < confidence r ∧ carries r k = true.
Proof.
  revert c. induction rs as [|r rs IH]; intros c Hk Ht; [by left|].
  simpl. destruct (decide (75 < confidence r ∧ carries r k = true)) as [[Hc Hr]|Hn].
  { right. exists r. split; [left|done]. }
  assert (mergeResult c r !! k = Some v) as Hkeep.
  { destruct (decide (confidence r ≤ 75)) as [Hle|Hgt].
    - by eapply mergeResult_low_keeps.
    - rewrite mergeResult_not_carried; [done|].
      destruct (carries r k) eqn:E; [|done]. exfalso. apply Hn. split; [lia|done]. }
  destruct (IH _ Hkeep Ht) as [?|(r' & Hin & ? & ?)]; [by left|].
  right. exists r'. split; [by right|done].
Qed.

End Merge.

(** C1 (the merge rule, P4 and P5).  The rule says that a field which is
    already set keeps its value when a result of confidence at most 75
    brings another one.  The controller tests the running value with [!],
    so a stored [0] counts as absent: after the fiscal result
    (confidence 90) has set [ivaAmount] to 0, the trade result
    (confidence 60) replaces it by 21. *)
Theorem low_confidence_result_replaces_zero :
  consolidateAgentResults [fiscalZeroVat] !! "ivaAmount" = Some (JNum 0)
  ∧ confidence tradeLowConfidence ≤ 75
  ∧ mergeResult (consolidateAgentResults [fiscalZeroVat]) tradeLowConfidence
      !! "ivaAmount" = Some (JNum 21)
  ∧ consolidateAgentResults [fiscalZeroVat; tradeLowConfidence] !! "ivaAmount"
      = Some (JNum 21).
Proof.
  split; [by vm_compute|]. split; [simpl; lia|].
  split; by vm_compute.
Qed.

(** The rule as the specification words it holds whenever the running
    value is absent or truthy: the field [k] of the merged mapping is the
    new value exactly when the running value is absent or the confidence
    exceeds 75. *)
Lemma merge_rule_on_truthy_values c r k w :
  extractedData r !! k = Some w → nonEmpty w = true →
  (c !! k = None ∨ ∃ v, c !! k = Some v ∧ truthy v = true) →
  (c !! k = None ∨ 75 < confidence r → mergeResult c r !! k = Some w)
  ∧ (¬ (c !! k = None ∨ 75 < confidence r) → mergeResult c r !! k = c !! k).
Proof.
  intros Hw Hne Hc. split.
  - intros [Hk|Hconf].
    + by apply mergeResult_absent.
    + by apply mergeResult_high.
  - intros Hn. destruct Hc as [Hk|(v & Hk & Ht)]; [tauto|].
    rewrite Hk. apply mergeResult_low_keeps; [done|done|lia].
Qed.



(** ** Properties of the overall confidence *)

Section Scoring.

Lemma weightedSum_foldl (rs : list AgentResult) (a : Z) :
  foldl (λ sum result,
           sum + confidence result * Z.of_nat (length (specialization result)))
        a rs = a + sumWeighted rs.
Proof.
  revert a. induction rs as [|r rs IH]; intros a; simpl.
  - unfold sumWeighted. simpl. lia.
  - rewrite IH. unfold sumWeighted. simpl. lia.
Qed.

Lemma totalWeight_foldl (rs : list AgentResult) (a : Z) :
  foldl (λ sum result, sum + Z.of_nat (length (specialization result))) a rs
  = a + sumWeights rs.
Proof.
  revert a. induction rs as [|r rs IH]; intros a; simpl.
  - unfold sumWeights. simpl. lia.
  - rewrite IH. unfold sumWeights. simpl. lia.
Qed.

Lemma weightedSum_sum rs : weightedSum rs = sumWeighted rs.
Proof. unfold weightedSum. rewrite weightedSum_foldl. lia. Qed.

Lemma totalWeight_sum rs : totalWeight rs = sumWeights rs.
Proof. unfold totalWeight. rewrite totalWeight_foldl. lia. Qed.

(** [Math.round] is within a half of its argument. *)
Lemma Math_round_nearest (x : Q) :
  (Qabs (inject_Z (Math_round x) - x) <= 1 # 2)%Q.
Proof.
  unfold Math_round. apply Qabs_Qle_condition.
  pose proof (Qfloor_le (x + (1 # 2))) as Hle.
  pose proof (Qlt_floor (x + (1 # 2))) as Hlt.
  rewrite inject_Z_plus in Hlt. change (inject_Z 1) with 1%Q in Hlt.
  split; lra.
Qed.

Lemma Math_round_bounds (x : Q) (lo hi : Z) :
  (inject_Z lo <= x)%Q → (x <= inject_Z hi)%Q → lo ≤ Math_round x ≤ hi.
Proof.
  intros Hlo Hhi. unfold Math_round.
  pose proof (Qfloor_le (x + (1 # 2))) as Hle.
  pose proof (Qlt_floor (x + (1 # 2))) as Hlt.
  rewrite inject_Z_plus in Hlt. change (inject_Z 1) with 1%Q in Hlt.
  split.
  - apply Z.lt_succ_r. rewrite Zlt_Qlt. unfold Z.succ.
    rewrite inject_Z_plus. change (inject_Z 1) with 1%Q. lra.
  - apply Z.lt_succ_r. rewrite Zlt_Qlt. unfold Z.succ.
    rewrite inject_Z_plus. change (inject_Z 1) with 1%Q. lra.
Qed.

Lemma sums_of_percentages rs :
  Forall percentage rs →
  0 ≤ sumWeighted rs ≤ 100 * sumWeights rs
  ∧ Z.of_nat (length rs) ≤ sumWeights rs.
Proof.
  induction 1 as [|r rs [Hc Hs] _ IH]; unfold sumWeighted, sumWeights in *; simpl.
  - lia.
  - assert (1 ≤ Z.of_nat (length (specialization r))).
    { destruct (specialization r); [done|simpl; lia]. }
    nia.
Qed.

Lemma calculateOverallConfidence_bounds rs :
  Forall percentage rs → 0 ≤ calculateOverallConfidence rs ≤ 100.
Proof.
  intros Hrs. unfold calculateOverallConfidence.
  destruct rs as [|r rs]; [simpl; lia|].
  change (length (r :: rs) =? 0)%nat with false. cbv iota.
  rewrite weightedSum_sum, totalWeight_sum.
  destruct (sums_of_percentages _ Hrs) as [[H0 H100] Hlen].
  simpl length in Hlen.
  set (s := sumWeighted (r :: rs)) in *. set (t := sumWeights (r :: rs)) in *.
  assert (0 < t) as Ht by lia.
  assert (0 < inject_Z t)%Q as Hq.
  { change 0%Q with (inject_Z 0). by rewrite <- Zlt_Qlt. }
  apply Math_round_bounds.
  - apply Qle_shift_div_l; [done|]. change (inject_Z 0 * inject_Z t)%Q with (0 * inject_Z t)%Q.
    rewrite Qmult_0_l. change 0%Q with (inject_Z 0). by rewrite <- Zle_Qle.
  - apply Qle_shift_div_r; [done|]. rewrite <- inject_Z_mult, <- Zle_Qle. lia.
Qed.

End Scoring.

(** C4 (the overall confidence).  For a non-empty list of results whose
    specialization counts do not all vanish, the overall confidence is the
    weighted mean of the confidences, each weighted by its number of
    specialization tags, rounded to the nearest integer (within a half of
    the mean); and the overall confidence of Stage 2 is that of the
    Stage-2 results alone. *)
Theorem overall_confidence_is_rounded_weighted_mean :
  (∀ rs : list AgentResult, rs ≠ [] → 0 < sumWeights rs →
     (Qabs (inject_Z (calculateOverallConfidence rs)
            - inject_Z (sumWeighted rs) / inject_Z (sumWeights rs)) <= 1 # 2)%Q)
  ∧ (∀ env params previousIteration w,
       let iteration2 :=
         fst (runIteration2_SpecializedRefinement env params previousIteration w) in
       agentResults iteration2
       = fst (Promise_all (specializationAgents env params previousIteration) w)
       ∧ overallConfidence iteration2
         = calculateOverallConfidence (agentResults iteration2)).
Proof.
  split.
  - intros rs Hne _. unfold calculateOverallConfidence.
    destruct rs as [|r rs]; [done|].
    change (length (r :: rs) =? 0)%nat with false. cbv iota.
    rewrite weightedSum_sum, totalWeight_sum. apply Math_round_nearest.
  - intros env params prev w. unfold runIteration2_SpecializedRefinement.
    unfold mbind, M_bind.
    by destruct (Promise_all (specializationAgents env params prev) w).
Qed.

Lemma overall_confidence_is_rounded_weighted_mean_witness :
  (Qabs (inject_Z (calculateOverallConfidence scenarioA)
         - inject_Z (sumWeighted scenarioA) / inject_Z (sumWeights scenarioA))
   <= 1 # 2)%Q.
Proof.
  apply (proj1 overall_confidence_is_rounded_weighted_mean scenarioA).
  - discriminate.
  - vm_compute. reflexivity.
Defined.

(** ** The control flow of a run *)

Section Run.

Variable env : Environment.

(** The iterations of a run are those of the stages the controller
    enters, each started in the world the previous one left. *)
Lemma iterations_cases (params : Params) (w : World) :
  let s1 := runIteration1_BaseAnalysis env params w in
  let s2 := runIteration2_SpecializedRefinement env params (fst s1) (snd s1) in
  let s3 := runIteration3_FinalVerification env params (fst s2) (snd s2) in
  iterations (fst (processDocumentOrchestrated env params w)) =
  if requiresNextIteration (fst s1) && (overallConfidence (fst s1) <? 90)
  then if requiresNextIteration (fst s2) && (overallConfidence (fst s2) <? 95)
       then [fst s1; fst s2; fst s3]
       else [fst s1; fst s2]
  else [fst s1].
Proof.
  intros s1 s2 s3. subst s1 s2 s3.
  unfold processDocumentOrchestrated, runIterations. step.
  destruct (runIteration1_BaseAnalysis env params w) as [it1 w1]. simpl.
  destruct (requiresNextIteration it1 && (overallConfidence it1 <? 90)); [|done].
  destruct (runIteration2_SpecializedRefinement env params it1 w1) as [it2 w2]. simpl.
  destruct (requiresNextIteration it2 && (overallConfidence it2 <? 95)); [|done].
  by destruct (runIteration3_FinalVerification env params it2 w2) as [it3 w3].
Qed.

Lemma stage1_shape (params : Params) (w : World) :
  let it1 := fst (runIteration1_BaseAnalysis env params w) in
  consolidatedData it1 = consolidateAgentResults (agentResults it1)
  ∧ overallConfidence it1 = calculateOverallConfidence (agentResults it1)
  ∧ requiresNextIteration it1
    = (overallConfidence it1 <? 85) || hasConflicts (agentResults it1).
Proof.
  unfold runIteration1_BaseAnalysis, mbind, M_bind.
  by destruct (Promise_all _ w).
Qed.

Lemma stage2_shape (params : Params) (previous : IterationResult) (w : World) :
  let it2 := fst (runIteration2_SpecializedRefinement env params previous w) in
  consolidatedData it2
  = foldl mergeResult (consolidateAgentResults (agentResults previous))
      (agentResults it2)
  ∧ overallConfidence it2 = calculateOverallConfidence (agentResults it2).
Proof.
  unfold runIteration2_SpecializedRefinement, mbind, M_bind.
  destruct (Promise_all _ w) as [results w']. simpl.
  unfold consolidateAgentResults. by rewrite foldl_app.
Qed.

Lemma stage3_shape (params : Params) (previous : IterationResult) (w : World) :
  let it3 := fst (runIteration3_FinalVerification env params previous w) in
  ∃ r, agentResults it3 = [r]
    ∧ consolidatedData it3 = extractedData r
    ∧ overallConfidence it3 = confidence r
    ∧ r = fst (runCrossValidationAgent env params previous w).
Proof.
  unfold runIteration3_FinalVerification, mbind, M_bind.
  destruct (runCrossValidationAgent env params previous w) as [r w']. simpl.
  by exists r.
Qed.

End Run.

(** ** The decision after Stage 1 *)

(** C2, refuted as stated.  The classification agent reports a confidence
    of 126 and the structural call times out: the overall confidence is 90,
    the structural fallback carries a conflict marker, and the run stops
    after Stage 1. *)
Lemma conflict_reported_yet_stage2_skipped :
  ¬ stage2Rule
      (iterations
         (fst (processDocumentOrchestrated (environment overconfidentClassifier)
                 invoicePdf initialWorld))).
Proof.
  remember (iterations _) as its eqn:E. vm_compute in E. subst its.
  intros (it1 & H1 & Hiff). simpl in H1. injection H1 as <-.
  destruct Hiff as [_ H]. simpl in H.
  assert (2 ≤ 1)%nat; [|lia]. apply H. right. reflexivity.
Qed.

(** C2, amended.  The controller enters Stage 2 exactly when the overall
    confidence of Stage 1 is below 85, or an agent of Stage 1 reported a
    conflict and the overall confidence is below 90. *)
Theorem stage2_entered_iff_low_confidence_or_guarded_conflict
    (env : Environment) (params : Params) (w : World) :
  stage2RuleWithGuard (iterations (fst (processDocumentOrchestrated env params w))).
Proof.
  unfold stage2RuleWithGuard. rewrite iterations_cases.
  destruct (stage1_shape env params w) as (_ & _ & Hreq).
  set (it1 := fst (runIteration1_BaseAnalysis env params w)) in *.
  exists it1. split.
  - destruct (_ && _); [destruct (_ && _)|]; reflexivity.
  - rewrite Hreq.
    destruct (Z.ltb_spec (overallConfidence it1) 85) as [H85|H85];
      destruct (Z.ltb_spec (overallConfidence it1) 90) as [H90|H90];
      destruct (hasConflicts (agentResults it1)); simpl;
      try destruct (_ && _); simpl; split; intros H;
      try lia; try (by left); try (right; split; [done|lia]);
      destruct H as [H|[H H']]; try lia; try discriminate.
Qed.

(** ** Consolidated data from one iteration to the next *)

Section Iterations.

Variable env : Environment.

(** A cross-validation result that carries a conflict marker is the
    fallback of the [catch] block: it hands the context back. *)
Lemma crossValidation_marked_preserves (params : Params)
    (context : IterationResult) (w : World) :
  let r := fst (runCrossValidationAgent env params context w) in
  is_Some (conflicts r) → extractedData r = consolidatedData context.
Proof.
  unfold runCrossValidationAgent. step.
  destruct (complete env _ _) as [error|text cleanText json]; simpl; [done|].
  by intros [? ?].
Qed.

End Iterations.

(** C3, refuted as stated.  First run: every call times out except that of
    the cross-validation agent, whose final data hold the total alone; the
    third iteration has lost [documentType], which the second had.  Second
    run: the structural agent (confidence 90) gives an invoice number in
    Stage 1 and the fiscal agent, reporting a confidence of 80, replaces it
    in Stage 2. *)
Lemma later_iteration_drops_and_downgrades :
  (∃ it2 it3,
     let its := iterations (fst (processDocumentOrchestrated
                  (environment onlyValidatorAnswers) invoicePdf initialWorld)) in
     its !! 1%nat = Some it2 ∧ its !! 2%nat = Some it3 ∧ ¬ noFieldDropped it2 it3)
  ∧ (∃ it1 it2,
       let its := iterations (fst (processDocumentOrchestrated
                    (environment fiscalOverrides) invoicePdf initialWorld)) in
       its !! 0%nat = Some it1 ∧ its !! 1%nat = Some it2
       ∧ ¬ replacedOnlyByHigherConfidence it1 it2).
Proof.
  split.
  - remember (iterations _) as its eqn:E. vm_compute in E. subst its.
    eexists _, _. split; [reflexivity|]. split; [reflexivity|].
    intros H. destruct (H "documentType") as [v Hv].
    + eexists. by vm_compute.
    + vm_compute in Hv. discriminate.
  - remember (iterations _) as its eqn:E. vm_compute in E. subst its.
    eexists _, _. split; [reflexivity|]. split; [reflexivity|].
    intros H.
    destruct (H "invoiceNumber" (JStr "0001-00001234") (JStr "0001-00009999"))
      as (r' & Hin & _ & _ & Hall).
    + by vm_compute.
    + by vm_compute.
    + discriminate.
    + apply list_elem_of_singleton in Hin. subst r'.
      pose proof (Hall _ (list_elem_of_further _ _ _ (list_elem_of_here _ _)))
        as Hstructural.
      assert (Hle := Hstructural ltac:(by vm_compute)).
      vm_compute in Hle. by apply Hle.
Qed.

(** C3, amended.  From Stage 1 to Stage 2 no field of the consolidated
    mapping is dropped, and a field that held a truthy value keeps it
    unless a Stage-2 result of confidence above 75 carries a non-null,
    non-empty value for it.  The consolidated mapping of Stage 3 is the
    data of the cross-validation result, whatever it holds; when that result
    is the fallback (it carries a conflict marker) it is the mapping of
    Stage 2, unchanged. *)
Theorem consolidated_data_across_iterations
    (env : Environment) (params : Params) (w : World) :
  let its := iterations (fst (processDocumentOrchestrated env params w)) in
  (∀ it1 it2, its !! 0%nat = Some it1 → its !! 1%nat = Some it2 →
     noFieldDropped it1 it2
     ∧ ∀ k v, consolidatedData it1 !! k = Some v → truthy v = true →
         consolidatedData it2 !! k = Some v
         ∨ ∃ r, r ∈ agentResults it2 ∧ 75 < confidence r ∧ carries r k = true)
  ∧ (∀ it2 it3, its !! 1%nat = Some it2 → its !! 2%nat = Some it3 →
     ∃ r, agentResults it3 = [r]
       ∧ consolidatedData it3 = extractedData r
       ∧ (is_Some (conflicts r) → consolidatedData it3 = consolidatedData it2)).
Proof.
  intros its. subst its. rewrite iterations_cases.
  destruct (stage1_shape env params w) as (Hc1 & _ & _).
  set (s1 := runIteration1_BaseAnalysis env params w) in *.
  destruct (stage2_shape env params (fst s1) (snd s1)) as (Hc2 & _).
  set (s2 := runIteration2_SpecializedRefinement env params (fst s1) (snd s1)) in *.
  destruct (stage3_shape env params (fst s2) (snd s2)) as (r & Hr & Hc3 & _ & Hcv).
  set (s3 := runIteration3_FinalVerification env params (fst s2) (snd s2)) in *.
  assert (noFieldDropped (fst s1) (fst s2)
          ∧ ∀ k v, consolidatedData (fst s1) !! k = Some v → truthy v = true →
              consolidatedData (fst s2) !! k = Some v
              ∨ ∃ r, r ∈ agentResults (fst s2) ∧ 75 < confidence r
                     ∧ carries r k = true) as Hstage2.
  { rewrite Hc2, <- Hc1. split.
    - intros k Hk. rewrite Hc2, <- Hc1. by apply foldl_mergeResult_is_Some.
    - intros k v Hk Ht. by apply foldl_mergeResult_truthy. }
  destruct (_ && _); [destruct (_ && _)|]; simpl; split;
    intros a b Ha Hb; try discriminate;
    injection Ha as <-; injection Hb as <-; try done.
  exists r. split; [done|]. split; [done|].
  intros Hm. rewrite Hc3. subst r. by apply crossValidation_marked_preserves.
Qed.

Lemma consolidated_data_across_iterations_witness :
  let its := iterations (fst (processDocumentOrchestrated
               (environment validatorsDown) invoicePdf initialWorld)) in
  ∃ it1 it2 it3, its = [it1; it2; it3]
    ∧ noFieldDropped it1 it2
    ∧ consolidatedData it3 = consolidatedData it2.
Proof.
  pose proof (consolidated_data_across_iterations
                (environment validatorsDown) invoicePdf initialWorld) as [H12 H23].
  remember (iterations _) as its eqn:E. vm_compute in E. subst its.
  eexists _, _, _. split; [reflexivity|].
  split.
  - apply (H12 _ _ eq_refl eq_refl).
  - destruct (H23 _ _ eq_refl eq_refl) as (r & Hr & Hc & Hkeep).
    apply Hkeep. injection Hr as <-. by eexists.
Defined.

(** ** The range of the overall confidence *)

Section Percentages.

Variable env : Environment.
Hypothesis Henv : reportsPercentages env.

Lemma confidenceOr_percentage (result : gmap string JsValue) (d : Z) :
  (∀ v, result !! "confidence" = Some v → ∃ c, v = JNum c ∧ 0 ≤ c ≤ 100) →
  0 ≤ d ≤ 100 → 0 ≤ confidenceOr result d ≤ 100.
Proof.
  intros Hc Hd. unfold confidenceOr, or_else, prop.
  destruct (result !! "confidence") as [v|] eqn:E; simpl; [|lia].
  destruct (Hc v eq_refl) as (c & -> & Hrange). simpl.
  destruct (c =? 0); simpl; lia.
Qed.

Lemma cleaned_reply_percentage (name : string) (n : nat)
    (text cleanText : string) (json : option (gmap string JsValue)) (d : Z) :
  complete env name n = Replied text cleanText json →
  0 ≤ d ≤ 100 →
  0 ≤ confidenceOr (cleanAnthropicResponse cleanText json) d ≤ 100.
Proof.
  intros Hreply Hd. apply confidenceOr_percentage; [|done].
  destruct json as [parsed|]; simpl.
  - intros v Hv. by eapply Henv.
  - intros v Hv. by simplify_map_eq.
Qed.

Lemma invoke_percentage (a : Agent) (params : Params) (context : IterationResult) :
  returns (invoke env a params context) percentage.
Proof.
  intros w. unfold percentage.
  destruct a; unfold invoke, runClassificationAgent, runStructuralExtractionAgent,
    runArgentineFiscalAgent, runInternationalTradeAgent,
    runConflictResolutionAgent, runCrossValidationAgent; step;
    destruct (complete env _ _) as [error|text cleanText json] eqn:E; simpl;
    try (split; [lia|done]);
    try (split; [by eapply cleaned_reply_percentage; [done|lia]|done]).
  destruct json; simpl; [|split; [lia|done]].
  split; [|done]. destruct (String.eqb _ _); lia.
Qed.

Lemma metadata_percentage (params : Params) :
  returns (runMetadataAgent params) percentage.
Proof. intros w. unfold percentage. simpl. split; [lia|done]. Qed.

Ltac all_percentages :=
  repeat first
    [ apply List.Forall_nil
    | apply List.Forall_cons;
      [ lazymatch goal with
        | |- returns (runClassificationAgent _ ?p) _ =>
            exact (invoke_percentage Classification p emptyContext)
        | |- returns (runStructuralExtractionAgent _ ?p) _ =>
            exact (invoke_percentage Structural p emptyContext)
        | |- returns (runArgentineFiscalAgent _ ?p ?c) _ =>
            exact (invoke_percentage ArgentineFiscal p c)
        | |- returns (runInternationalTradeAgent _ ?p ?c) _ =>
            exact (invoke_percentage InternationalTrade p c)
        | |- returns (runConflictResolutionAgent _ ?p ?c _) _ =>
            exact (invoke_percentage ConflictResolution p c)
        | |- returns (runMetadataAgent ?p) _ => exact (metadata_percentage p)
        end | ] ].

Lemma Promise_all_returns {A} (P : A → Prop) (tasks : list (M A)) :
  Forall (λ task, returns task P) tasks →
  returns (Promise_all tasks) (Forall P).
Proof.
  induction 1 as [|task tasks Htask _ IH]; intros w; simpl; [done|].
  unfold mbind, M_bind. specialize (Htask w).
  destruct (task w) as [a w1]. specialize (IH w1).
  destruct (Promise_all tasks w1) as [others w2]. simpl in *. by constructor.
Qed.

Lemma stage1_percentage (params : Params) :
  returns (runIteration1_BaseAnalysis env params)
    (λ it, 0 ≤ overallConfidence it ≤ 100).
Proof.
  intros w. unfold runIteration1_BaseAnalysis, mbind, M_bind.
  assert (Forall (λ task, returns task percentage)
            [runClassificationAgent env params;
             runStructuralExtractionAgent env params;
             runMetadataAgent params]) as Htasks by all_percentages.
  pose proof (Promise_all_returns percentage _ Htasks w) as Hall.
  destruct (Promise_all _ w) as [results w']. simpl in *.
  by apply calculateOverallConfidence_bounds.
Qed.

Lemma stage2_percentage (params : Params) (previous : IterationResult) :
  returns (runIteration2_SpecializedRefinement env params previous)
    (λ it, 0 ≤ overallConfidence it ≤ 100).
Proof.
  intros w. unfold runIteration2_SpecializedRefinement, mbind, M_bind.
  assert (Forall (λ task, returns task percentage)
            (specializationAgents env params previous)) as Htasks.
  { unfold specializationAgents.
    repeat match goal with |- context [if ?b then _ else _] => destruct b end;
      simpl; all_percentages. }
  pose proof (Promise_all_returns percentage _ Htasks w) as Hall.
  destruct (Promise_all _ w) as [results w']. simpl in *.
  by apply calculateOverallConfidence_bounds.
Qed.

Lemma stage3_percentage (params : Params) (previous : IterationResult) :
  returns (runIteration3_FinalVerification env params previous)
    (λ it, 0 ≤ overallConfidence it ≤ 100).
Proof.
  intros w. unfold runIteration3_FinalVerification, mbind, M_bind.
  pose proof (invoke_percentage CrossValidation params previous w) as [Hc _].
  simpl in Hc. by destruct (runCrossValidationAgent env params previous w).
Qed.

End Percentages.

(** C5, refuted as stated.  The classification agent reports a confidence
    of 150 and the structural agent answers: the overall confidence of the
    first iteration is 103. *)
Lemma overall_confidence_above_100 :
  ∃ it, it ∈ iterations (fst (processDocumentOrchestrated
                (environment confidence150) invoicePdf initialWorld))
    ∧ ¬ (0 ≤ overallConfidence it ≤ 100).
Proof.
  remember (iterations _) as its eqn:E. vm_compute in E. subst its.
  eexists. split; [left|]. simpl. lia.
Qed.

(** C5, amended.  When every confidence the backend reports is an integer
    of [0, 100], the overall confidence of every iteration of a run lies
    in [0, 100]. *)
Theorem overall_confidence_percentage
    (env : Environment) (params : Params) (w : World) :
  reportsPercentages env →
  ∀ it, it ∈ iterations (fst (processDocumentOrchestrated env params w)) →
        0 ≤ overallConfidence it ≤ 100.
Proof.
  intros Henv it. rewrite iterations_cases.
  pose proof (stage1_percentage env Henv params w) as H1.
  set (s1 := runIteration1_BaseAnalysis env params w) in *.
  pose proof (stage2_percentage env Henv params (fst s1) (snd s1)) as H2.
  set (s2 := runIteration2_SpecializedRefinement env params (fst s1) (snd s1)) in *.
  pose proof (stage3_percentage env Henv params (fst s2) (snd s2)) as H3.
  destruct (_ && _); [destruct (_ && _)|];
    rewrite ?elem_of_cons, elem_of_nil; intros Hin;
    repeat destruct Hin as [->|Hin]; done.
Qed.

Lemma overall_confidence_percentage_witness :
  Forall (λ it, 0 ≤ overallConfidence it ≤ 100)
    (iterations (fst (processDocumentOrchestrated
                   (environment validatorsDown) invoicePdf initialWorld))).
Proof.
  apply Forall_forall.
  apply (overall_confidence_percentage (environment validatorsDown)).
  intros name n text cleanText parsed v. simpl. unfold validatorsDown.
  destruct (String.eqb name "classification_agent").
  { intros [= <- <- <-] Hc. vm_compute in Hc. injection Hc as <-.
    exists 80. split; [done|lia]. }
  destruct (String.eqb name "structural_extraction_agent").
  { intros [= <- <- <-] Hc. vm_compute in Hc. discriminate. }
  discriminate.
Defined.

(** ** Fallback results *)

(** C6, refuted as stated.  Stage 1 answers, then the fiscal and the
    cross-validation calls time out: the result of the failed
    cross-validation call carries the consolidated document fields, the
    invoice number among them, and is neither empty nor error-marked. *)
Lemma failed_validation_returns_document_fields :
  ∃ it3 r,
    iterations (fst (processDocumentOrchestrated (environment validatorsDown)
                  invoicePdf initialWorld)) !! 2%nat = Some it3
    ∧ agentResults it3 = [r]
    ∧ agentName r = "cross_validation_agent"
    ∧ conflicts r = Some ["Final validation had issues but data preserved"]
    ∧ extractedData r !! "invoiceNumber" = Some (JStr "0001-00001234")
    ∧ ¬ emptyOrErrorMarked (extractedData r).
Proof.
  remember (iterations _) as its eqn:E. vm_compute in E. subst its.
  eexists _, _. split; [reflexivity|]. split; [reflexivity|].
  split; [reflexivity|]. split; [reflexivity|]. split; [by vm_compute|].
  intros [Hempty|[v Hv]].
  - apply (f_equal (λ m : gmap string JsValue, m !! "invoiceNumber")) in Hempty.
    vm_compute in Hempty. discriminate.
  - vm_compute in Hv. discriminate.
Qed.

Lemma invoke_rejected (env : Environment) (a : Agent) (params : Params)
    (context : IterationResult) (w : World) (error : string) :
  complete env (nameOf a) (callsOf (nameOf a) w) = Rejected error →
  confidence (fst (invoke env a params context w)) = fallbackConfidence a
  ∧ extractedData (fst (invoke env a params context w)) = fallbackData a context
  ∧ ∃ marker, conflicts (fst (invoke env a params context w)) = Some [marker].
Proof.
  intros Hrej.
  destruct a; unfold invoke, runClassificationAgent, runStructuralExtractionAgent,
    runArgentineFiscalAgent, runInternationalTradeAgent,
    runConflictResolutionAgent, runCrossValidationAgent;
    unfold mbind, M_bind, mret, M_ret, messages_create, logApiCall,
      recordAgentExecution; simpl in *; rewrite Hrej; simpl;
    (split; [done|]); (split; [done|]); by eexists.
Qed.

(** C6, amended.  When the backend call of an agent fails, the result has
    the constant confidence of that agent's [catch] block (30, 40, 50, 45,
    60, and 80 for cross-validation), carries one conflict marker, and its
    data are empty, except for the classification agent, which returns the
    two placeholders [documentType] and [documentOrigin] set to
    ["unknown"], and for the cross-validation agent, which returns the
    consolidated data it was given. *)
Theorem fallback_result (env : Environment) (a : Agent) (params : Params)
    (context : IterationResult) (w : World) (error : string) :
  complete env (nameOf a) (callsOf (nameOf a) w) = Rejected error →
  let r := fst (invoke env a params context w) in
  confidence r = fallbackConfidence a
  ∧ extractedData r = fallbackData a context
  ∧ ∃ marker, conflicts r = Some [marker].
Proof. apply invoke_rejected. Qed.

Lemma fallback_result_witness :
  let r := fst (invoke (environment backendDown) CrossValidation invoicePdf
                  emptyContext initialWorld) in
  confidence r = 80
  ∧ extractedData r = consolidatedData emptyContext
  ∧ ∃ marker, conflicts r = Some [marker].
Proof.
  apply (fallback_result (environment backendDown) CrossValidation invoicePdf
           emptyContext initialWorld "Error: Request timed out.").
  reflexivity.
Defined.

(** C7 (a reply that does not parse).  Every agent is answered with prose.
    The classification agent returns the error object as its data with the
    default confidence 75 and no conflict marker, and the call is recorded
    as a success; the cross-validation agent does the same with confidence
    98.  Only the structural agent, which parses inside its [try], returns
    the fallback: confidence 40 and a conflict marker. *)
Theorem unparsable_reply_passes_as_success :
  let env := environment answersProse in
  let classified := runClassificationAgent env invoicePdf initialWorld in
  let validated := runCrossValidationAgent env invoicePdf emptyContext initialWorld in
  let structural := runStructuralExtractionAgent env invoicePdf initialWorld in
  (confidence (fst classified) = 75
   ∧ conflicts (fst classified) = None
   ∧ extractedData (fst classified)
     = {[ "error" := JStr "Failed to parse JSON"; "rawResponse" := JStr prose ]}
   ∧ AgentManager.errorCount
       <$> AgentManager.getAgentMetrics (manager (snd classified)) "classification_agent"
     = Some 0)
  ∧ (confidence (fst validated) = 98 ∧ conflicts (fst validated) = None)
  ∧ (confidence (fst structural) = 40
     ∧ conflicts (fst structural) = Some ["Structural extraction failed"]).
Proof. vm_compute. repeat split. Qed.

(** ** Backend calls and the size of a stage *)

Lemma Promise_all_length {A} (tasks : list (M A)) (w : World) :
  length (fst (Promise_all tasks w)) = length tasks.
Proof.
  revert w. induction tasks as [|task tasks IH]; intros w; simpl; [done|].
  unfold mbind, M_bind. destruct (task w) as [a w1]. specialize (IH w1).
  destruct (Promise_all tasks w1) as [others w2]. simpl in *. by rewrite IH.
Qed.

Lemma invoke_calls_once (env : Environment) (a : Agent) (params : Params)
    (context : IterationResult) (w : World) :
  backendCalls (snd (invoke env a params context w))
  = (backendCalls w ++ [nameOf a])%list
  ∧ agentName (fst (invoke env a params context w)) = nameOf a.
Proof.
  destruct a; unfold invoke, runClassificationAgent, runStructuralExtractionAgent,
    runArgentineFiscalAgent, runInternationalTradeAgent,
    runConflictResolutionAgent, runCrossValidationAgent;
    unfold mbind, M_bind, mret, M_ret, messages_create, logApiCall,
      recordAgentExecution; simpl;
    by destruct (complete env _ _) as [error|text cleanText [parsed|]].
Qed.




(** ** Agent metrics *)

(** The success rate is recomputed on every recorded call as
    (executions − errors) / executions × 100. *)
Lemma updateMetrics_successRate (metrics : AgentManager.AgentMetrics)
    (success : bool) (confidence executionTime now : Z) :
  let metrics' :=
    AgentManager.updateMetrics metrics success confidence executionTime now in
  (AgentManager.successRate metrics'
   == inject_Z (AgentManager.executions metrics' - AgentManager.errorCount metrics')
      / inject_Z (AgentManager.executions metrics') * 100)%Q.
Proof. simpl. reflexivity. Qed.

(** The agents of Stages 2 and 3 leave the registry as they found it:
    they never call [recordAgentExecution]. *)
Lemma refinement_agents_record_nothing (env : Environment) (a : Agent)
    (params : Params) (context : IterationResult) (w : World) :
  a ≠ Classification → a ≠ Structural →
  manager (snd (invoke env a params context w)) = manager w.
Proof.
  intros Hc Hs.
  destruct a; try done;
    unfold invoke, runArgentineFiscalAgent, runInternationalTradeAgent,
      runConflictResolutionAgent, runCrossValidationAgent;
    unfold mbind, M_bind, mret, M_ret, messages_create, logApiCall; simpl;
    by destruct (complete env _ _).
Qed.

(** C9 (metrics).  The first classification call times out and the second
    reports a confidence of 90.  The registry then shows two executions,
    one error and a success rate of 50, as the formula says, but an average
    confidence of 45, where the mean over the successful calls is 90: the
    running average divides by the count of all executions.  And an
    invocation of the fiscal agent, answered or not, leaves the metrics of
    that agent at zero executions. *)
Theorem average_confidence_diluted_by_failed_calls :
  let env := environment failsThenAnswers in
  let w1 := snd (runClassificationAgent env invoicePdf initialWorld) in
  let w2 := snd (runClassificationAgent env invoicePdf w1) in
  let w3 := snd (runArgentineFiscalAgent env invoicePdf emptyContext w2) in
  (∃ m, AgentManager.getAgentMetrics (manager w2) "classification_agent" = Some m
     ∧ AgentManager.executions m = 2
     ∧ AgentManager.errorCount m = 1
     ∧ (AgentManager.successRate m == 50)%Q
     ∧ (AgentManager.averageConfidence m == 45)%Q
     ∧ (meanSuccessfulConfidence failedThenSucceeded == 90)%Q)
  ∧ AgentManager.executions
      <$> AgentManager.getAgentMetrics (manager w3) "argentina_fiscal_agent"
    = Some 0.
Proof.
  split.
  - eexists. split; [by vm_compute|]. repeat split; by vm_compute.
  - by vm_compute.
Qed.

(** ** The two readings of the Stage-1 rule agree on percentages *)

(** When the reported confidences are percentages, a Stage 1 in which an
    agent reported a conflict has an overall confidence below 85: the guard
    at 90 then never decides, and the rule holds as the specification
    words it. *)
Lemma stage1_conflict_means_low_confidence
    (env : Environment) (params : Params) (w : World) :
  reportsPercentages env →
  let it1 := fst (runIteration1_BaseAnalysis env params w) in
  hasConflicts (agentResults it1) = true → overallConfidence it1 < 85.
Proof.
  intros Henv. unfold runIteration1_BaseAnalysis, Promise_all,
    runClassificationAgent, runStructuralExtractionAgent, runMetadataAgent.
  step.
  destruct (complete env "classification_agent" _)
    as [error|text cleanText json] eqn:Ec; simpl.
  - destruct (complete env "structural_extraction_agent" _)
      as [error'|text' cleanText' [parsed|]]; simpl; intros _;
      try destruct (String.eqb (mimeType params) "application/pdf");
      vm_compute; reflexivity.
  - pose proof (cleaned_reply_percentage env Henv _ _ _ _ _ 75 Ec ltac:(lia)) as Hc.
    set (c := confidenceOr (cleanAnthropicResponse cleanText json) 75) in *.
    destruct (complete env "structural_extraction_agent" _)
      as [error'|text' cleanText' [parsed|]]; simpl; try discriminate; intros _.
    + unfold calculateOverallConfidence, weightedSum, totalWeight. simpl.
      lazymatch goal with
      | |- Math_round ?x < 85 =>
          assert (0 ≤ Math_round x ≤ 84) as [_ Hb]; [|lia]
      end.
      apply Math_round_bounds.
      * apply Qle_shift_div_l; [reflexivity|].
        rewrite <- inject_Z_mult, <- Zle_Qle. lia.
      * apply Qle_shift_div_r; [reflexivity|].
        rewrite <- inject_Z_mult, <- Zle_Qle. lia.
    + unfold calculateOverallConfidence, weightedSum, totalWeight. simpl.
      lazymatch goal with
      | |- Math_round ?x < 85 =>
          assert (0 ≤ Math_round x ≤ 84) as [_ Hb]; [|lia]
      end.
      apply Math_round_bounds.
      * apply Qle_shift_div_l; [reflexivity|].
        rewrite <- inject_Z_mult, <- Zle_Qle. lia.
      * apply Qle_shift_div_r; [reflexivity|].
        rewrite <- inject_Z_mult, <- Zle_Qle. lia.
Qed.

Lemma stage2_rule_on_percentages
    (env : Environment) (params : Params) (w : World) :
  reportsPercentages env →
  stage2Rule (iterations (fst (processDocumentOrchestrated env params w))).
Proof.
  intros Henv. unfold stage2Rule. rewrite iterations_cases.
  destruct (stage1_shape env params w) as (_ & _ & Hreq).
  pose proof (stage1_conflict_means_low_confidence env params w Henv) as Hlow.
  set (it1 := fst (runIteration1_BaseAnalysis env params w)) in *.
  simpl in Hlow. exists it1. split.
  - destruct (_ && _); [destruct (_ && _)|]; reflexivity.
  - rewrite Hreq.
    destruct (Z.ltb_spec (overallConfidence it1) 85) as [H85|H85];
      destruct (Z.ltb_spec (overallConfidence it1) 90) as [H90|H90];
      destruct (hasConflicts (agentResults it1)); simpl;
      try destruct (_ && _); simpl; split; intros H;
      try lia; try (by left); try (by right);
      try (specialize (Hlow eq_refl); lia);
      destruct H as [H|H]; try lia; try discriminate.
Qed.

(** * Further properties of the registry *)

Section RegistryMetrics.

Import AgentManager.

Implicit Types (mgr : AgentManager) (calls : list Call) (c : Call).

Lemma recordAgentExecution_lookup mgr (agent other : string) (success : bool)
    (confidence executionTime now : Z) :
  agentMetrics (recordAgentExecution mgr agent success confidence executionTime now)
    !! other
  = if decide (agent = other)
    then (λ m, updateMetrics m success confidence executionTime now)
           <$> agentMetrics mgr !! other
    else agentMetrics mgr !! other.
Proof.
  unfold recordAgentExecution.
  destruct (agentMetrics mgr !! agent) as [m|] eqn:E; simpl.
  - rewrite lookup_insert. case_decide; [subst; by rewrite E|done].
  - case_decide; [subst; by rewrite E|done].
Qed.

(** X1.  Recording an execution changes the metrics of the named agent
    alone: the configurations, the history and the metrics of every other
    agent stay as they were, and for a name the registry does not know
    nothing changes at all. *)
Theorem recordAgentExecution_is_local mgr (agent : string) (success : bool)
    (confidence executionTime now : Z) :
  let mgr' := recordAgentExecution mgr agent success confidence executionTime now in
  agentConfigs mgr' = agentConfigs mgr
  ∧ executionHistory mgr' = executionHistory mgr
  ∧ (∀ other, other ≠ agent → agentMetrics mgr' !! other = agentMetrics mgr !! other)
  ∧ (agentMetrics mgr !! agent = None → mgr' = mgr).
Proof.
  simpl. split; [|split; [|split]].
  - unfold recordAgentExecution. by destruct (agentMetrics mgr !! agent).
  - unfold recordAgentExecution. by destruct (agentMetrics mgr !! agent).
  - intros other Hne. rewrite recordAgentExecution_lookup. by case_decide.
  - intros Hnone. unfold recordAgentExecution. by rewrite Hnone.
Qed.

Lemma fresh_registry_metrics (agent : string) (m : AgentMetrics) :
  agentMetrics initializeDefaultConfigs !! agent = Some m →
  ∃ spec, m = freshMetrics agent spec.
Proof.
  unfold initializeDefaultConfigs. simpl. intros Hm.
  repeat (rewrite lookup_insert in Hm; case_decide;
          [subst; injection Hm as <-; by eexists|]).
  try by rewrite lookup_empty in Hm.
Qed.

Lemma callsOfAgent_snoc (agent : string) calls c :
  callsOfAgent agent (calls ++ [c])
  = (callsOfAgent agent calls ++ if decide (call_agent c = agent) then [c] else [])%list.
Proof.
  unfold callsOfAgent. by rewrite filter_app.
Qed.

Lemma successRate_bounds (n e : Z) :
  0 ≤ e ≤ n → 0 < n →
  (0 <= inject_Z (n - e) / inject_Z n * 100 <= 100)%Q.
Proof.
  intros He Hn.
  assert (0 < inject_Z n)%Q as Hq.
  { change 0%Q with (inject_Z 0). by rewrite <- Zlt_Qlt. }
  assert (0 <= inject_Z (n - e) / inject_Z n)%Q as H0.
  { apply Qle_shift_div_l; [done|]. rewrite Qmult_0_l.
    change 0%Q with (inject_Z 0). rewrite <- Zle_Qle. lia. }
  assert (inject_Z (n - e) / inject_Z n <= 1)%Q as H1.
  { apply Qle_shift_div_r; [done|]. rewrite Qmult_1_l. rewrite <- Zle_Qle. lia. }
  split; lra.
Qed.

Lemma recordCalls_counts calls (agent : string) (m : AgentMetrics) :
  agentMetrics (recordCalls initializeDefaultConfigs calls) !! agent = Some m →
  countsCalls agent calls m.
Proof.
  revert m. induction calls as [|c calls IH] using rev_ind; intros m Hm.
  - destruct (fresh_registry_metrics _ _ Hm) as [spec ->].
    split; [done|]. split; [done|]. simpl. split; [discriminate|apply Qle_refl].
  - unfold recordCalls in Hm. rewrite foldl_app in Hm. simpl in Hm.
    unfold recordCall at 1 in Hm. rewrite recordAgentExecution_lookup in Hm.
    fold (recordCalls initializeDefaultConfigs calls) in Hm.
    unfold countsCalls. rewrite callsOfAgent_snoc. case_decide as Hagent.
    + destruct (agentMetrics (recordCalls initializeDefaultConfigs calls) !! agent)
        as [m0|] eqn:E; [|done].
      injection Hm as <-. destruct (IH m0 eq_refl) as (Hn & He & _).
      assert (0 ≤ errorCount m0 ≤ executions m0) as Hle.
      { rewrite Hn, He. unfold failedCalls.
        pose proof (length_filter (λ c, call_success c = false)
                      (callsOfAgent agent calls)). lia. }
      unfold failedCalls in *. rewrite filter_app, !length_app.
      rewrite filter_cons, filter_nil. simpl.
      split; [lia|]. split.
      * destruct (call_success c); case_decide; simpl; try done; lia.
      * apply successRate_bounds; destruct (call_success c); lia.
    + rewrite app_nil_r. by apply IH.
Qed.

End RegistryMetrics.

Section RegistryTheorems.

Import AgentManager RegistryScenarios.

Implicit Types (mgr : AgentManager) (calls : list Call) (c : Call).

(** X2.  After any list of recorded executions on a fresh registry, the
    metrics of an agent count its executions and its failed executions
    exactly, and its success rate lies between 0 and 100. *)
Theorem metrics_count_recorded_calls calls (agent : string) (m : AgentMetrics) :
  agentMetrics (recordCalls initializeDefaultConfigs calls) !! agent = Some m →
  executions m = Z.of_nat (length (callsOfAgent agent calls))
  ∧ errorCount m = Z.of_nat (length (failedCalls (callsOfAgent agent calls)))
  ∧ (0 <= successRate m <= 100)%Q.
Proof. apply recordCalls_counts. Qed.

Lemma metrics_count_recorded_calls_witness :
  ∃ m, agentMetrics (recordCalls initializeDefaultConfigs succeededTwice)
         !! "structural_extraction_agent" = Some m
    ∧ executions m = 1 ∧ errorCount m = 1 ∧ (0 <= successRate m <= 100)%Q.
Proof.
  eexists. split; [by vm_compute|].
  apply (metrics_count_recorded_calls succeededTwice "structural_extraction_agent").
  by vm_compute.
Defined.

Lemma sumZ_map_snoc {A} (f : A → Z) (l : list A) (x : A) :
  sumZ (map f (l ++ [x])) = sumZ (map f l) + f x.
Proof. unfold sumZ. induction l as [|y l IH]; simpl; lia. Qed.

Lemma running_average_step (avg : Q) (n total x : Z) :
  0 ≤ n →
  (avg * inject_Z n == inject_Z total)%Q →
  ((avg * inject_Z (n + 1 - 1) + inject_Z x) / inject_Z (n + 1) * inject_Z (n + 1)
   == inject_Z (total + x))%Q.
Proof.
  intros Hn Havg.
  assert (¬ (inject_Z (n + 1) == 0)%Q) as Hne.
  { change 0%Q with (inject_Z 0). rewrite inject_Z_injective. lia. }
  rewrite Qmult_comm, Qmult_div_r by done.
  replace (n + 1 - 1) with n by lia. rewrite Havg, inject_Z_plus. reflexivity.
Qed.

Lemma recordCalls_average calls (agent : string) (m : AgentMetrics) :
  agentMetrics (recordCalls initializeDefaultConfigs calls) !! agent = Some m →
  failedCalls (callsOfAgent agent calls) = [] →
  (averageConfidence m * inject_Z (executions m)
   == inject_Z (sumZ (map call_confidence (callsOfAgent agent calls))))%Q
  ∧ (averageExecutionTime m * inject_Z (executions m)
     == inject_Z (sumZ (map call_time (callsOfAgent agent calls))))%Q.
Proof.
  revert m. induction calls as [|c calls IH] using rev_ind; intros m Hm Hok.
  - destruct (fresh_registry_metrics _ _ Hm) as [spec ->]. simpl. split; reflexivity.
  - unfold recordCalls in Hm. rewrite foldl_app in Hm. simpl in Hm.
    unfold recordCall at 1 in Hm. rewrite recordAgentExecution_lookup in Hm.
    fold (recordCalls initializeDefaultConfigs calls) in Hm.
    rewrite callsOfAgent_snoc in Hok |- *. case_decide as Hagent.
    + destruct (agentMetrics (recordCalls initializeDefaultConfigs calls) !! agent)
        as [m0|] eqn:E; [|done].
      injection Hm as <-.
      unfold failedCalls in Hok. rewrite filter_app in Hok.
      apply app_eq_nil in Hok as [Hok Hc].
      destruct (call_success c) eqn:Hs.
      2:{ rewrite filter_cons in Hc. rewrite Hs in Hc.
          by case_decide. }
      destruct (IH m0 eq_refl Hok) as [Hconf Htime].
      destruct (recordCalls_counts calls agent m0 E) as (Hn & _ & _).
      rewrite !sumZ_map_snoc. simpl.
      split; apply running_average_step; try done; lia.
    + rewrite app_nil_r in Hok |- *. by apply IH.
Qed.

(** X3.  When none of the recorded executions of an agent failed, its
    running averages are exact: the average confidence times the number of
    executions is the sum of the recorded confidences, and likewise for the
    execution times. *)
Theorem running_averages_exact_without_failures calls (agent : string)
    (m : AgentMetrics) :
  agentMetrics (recordCalls initializeDefaultConfigs calls) !! agent = Some m →
  failedCalls (callsOfAgent agent calls) = [] →
  (averageConfidence m * inject_Z (executions m)
   == inject_Z (sumZ (map call_confidence (callsOfAgent agent calls))))%Q
  ∧ (averageExecutionTime m * inject_Z (executions m)
     == inject_Z (sumZ (map call_time (callsOfAgent agent calls))))%Q.
Proof. apply recordCalls_average. Qed.

Lemma running_averages_exact_without_failures_witness :
  ∃ m, agentMetrics (recordCalls initializeDefaultConfigs succeededTwice)
         !! "classification_agent" = Some m
    ∧ (averageConfidence m * inject_Z (executions m) == inject_Z 170)%Q.
Proof.
  eexists. split; [by vm_compute|].
  refine (proj1 (running_averages_exact_without_failures succeededTwice
                   "classification_agent" _ _ _)).
  - by vm_compute.
  - by vm_compute.
Defined.

(** X4.  Recording a run keeps the 100 most recent entries of the history,
    oldest first, the new entry last, and changes nothing else. *)
Theorem recordSystemExecution_keeps_latest_100 mgr (exec : SystemExecution) :
  let history := executionHistory mgr in
  let mgr' := recordSystemExecution mgr exec in
  executionHistory mgr' = drop (length history + 1 - 100) (history ++ [exec])
  ∧ last (executionHistory mgr') = Some exec
  ∧ length (executionHistory mgr') = min 100 (length history + 1)
  ∧ agentConfigs mgr' = agentConfigs mgr
  ∧ agentMetrics mgr' = agentMetrics mgr.
Proof.
  cbv zeta. set (history := executionHistory mgr).
  assert (executionHistory (recordSystemExecution mgr exec)
          = drop (length history + 1 - 100) (history ++ [exec])) as Heq.
  { unfold recordSystemExecution, slice_last. simpl. fold history.
    rewrite length_app. simpl.
    destruct (Nat.ltb_spec 100 (length history + 1)) as [Hlt|Hge]; [done|].
    by replace (length history + 1 - 100)%nat with 0%nat by lia. }
  rewrite Heq. split; [done|]. split; [|split; [|done]].
  - rewrite drop_app_le by lia. apply last_snoc.
  - rewrite length_drop, length_app. change (length [exec]) with 1%nat. lia.
Qed.

Lemma slice_from_negative {A} (l : list A) (k : Z) :
  0 < k → slice_from (- k) l = drop (length l - Z.to_nat k) l.
Proof.
  intros Hk. unfold slice_from.
  replace (- k <? 0) with true by (symmetry; apply Z.ltb_lt; lia).
  f_equal. lia.
Qed.

(** X5.  [getExecutionHistory] with a positive limit returns the newest
    entries first, and at most [limit] of them. *)
Theorem getExecutionHistory_newest_first mgr (limit : Z) :
  0 < limit →
  getExecutionHistory mgr limit
  = take (Z.to_nat limit) (reverse (executionHistory mgr)).
Proof.
  intros Hlimit. unfold getExecutionHistory.
  rewrite slice_from_negative by done. rewrite reverse_drop.
  destruct (decide (Z.to_nat limit ≤ length (executionHistory mgr))%nat).
  - f_equal. lia.
  - rewrite !take_ge; [done|rewrite length_reverse; lia|rewrite length_reverse; lia].
Qed.

Lemma getExecutionHistory_newest_first_witness :
  map documentId (getExecutionHistory (registryWith threeRuns) 2)
  = ["doc-3"; "doc-2"].
Proof.
  rewrite (getExecutionHistory_newest_first (registryWith threeRuns) 2); [|lia].
  reflexivity.
Defined.

(** X6.  With a limit of 0 or less, [getExecutionHistory] does not return
    an empty list: [slice(-0)] is [slice(0)], so the whole history comes
    back, and a negative limit drops that many of the oldest entries. *)
Theorem getExecutionHistory_without_positive_limit mgr (limit : Z) :
  limit ≤ 0 →
  getExecutionHistory mgr limit
  = reverse (drop (Z.to_nat (- limit)) (executionHistory mgr)).
Proof.
  intros Hlimit. unfold getExecutionHistory, slice_from.
  replace (- limit <? 0) with false by (symmetry; apply Z.ltb_ge; lia).
  f_equal.
  destruct (decide (- limit ≤ Z.of_nat (length (executionHistory mgr)))).
  - f_equal. lia.
  - rewrite !drop_ge; [done|lia|lia].
Qed.

Lemma getExecutionHistory_without_positive_limit_witness :
  map documentId (getExecutionHistory (registryWith threeRuns) 0)
  = ["doc-3"; "doc-2"; "doc-1"].
Proof.
  rewrite (getExecutionHistory_without_positive_limit (registryWith threeRuns) 0);
    [|lia].
  reflexivity.
Defined.

End RegistryTheorems.

Section RegistryConfiguration.

Import AgentManager RegistryScenarios.

Implicit Types (mgr : AgentManager) (calls : list Call).

(** X7.  [updateAgentConfig] refuses a name the registry does not know and
    leaves the registry as it is; for a known agent it stores the old
    configuration overlaid with the update, and touches neither the
    configuration of another agent, nor any metrics (the specialization
    kept in the metrics is not refreshed), nor the history. *)
Theorem updateAgentConfig_round_trip mgr (agent : string)
    (updates : AgentConfigUpdates) :
  match agentConfigs mgr !! agent with
  | None => updateAgentConfig mgr agent updates = (false, mgr)
  | Some config =>
      let mgr' := snd (updateAgentConfig mgr agent updates) in
      fst (updateAgentConfig mgr agent updates) = true
      ∧ getAgentConfig mgr' agent = Some (spread config updates)
      ∧ (∀ other, other ≠ agent → getAgentConfig mgr' other = getAgentConfig mgr other)
      ∧ agentMetrics mgr' = agentMetrics mgr
      ∧ executionHistory mgr' = executionHistory mgr
  end.
Proof.
  unfold updateAgentConfig, getAgentConfig.
  destruct (agentConfigs mgr !! agent) as [config|] eqn:E; [|done]. simpl.
  split; [done|]. split; [by rewrite lookup_insert_eq|].
  split; [|done]. intros other Hne. by rewrite lookup_insert_ne.
Qed.

(** X8.  Once an agent is disabled through [updateAgentConfig],
    [shouldExecuteAgent] refuses it for every document type, and answers
    for the other agents as before. *)
Theorem disabled_agent_should_not_execute mgr (agent : string)
    (config : AgentConfig) :
  agentConfigs mgr !! agent = Some config →
  let mgr' := snd (updateAgentConfig mgr agent disable) in
  ∀ documentType,
    shouldExecuteAgent mgr' agent documentType = false
    ∧ ∀ other, other ≠ agent →
        shouldExecuteAgent mgr' other documentType
        = shouldExecuteAgent mgr other documentType.
Proof.
  intros Hconfig mgr' documentType. subst mgr'.
  unfold updateAgentConfig, shouldExecuteAgent. rewrite Hconfig. simpl. split.
  - by rewrite lookup_insert_eq.
  - intros other Hne. by rewrite lookup_insert_ne.
Qed.

Lemma disabled_agent_should_not_execute_witness :
  shouldExecuteAgent initializeDefaultConfigs "metadata_agent" None = true
  ∧ shouldExecuteAgent
      (snd (updateAgentConfig initializeDefaultConfigs "metadata_agent" disable))
      "metadata_agent" None = false.
Proof.
  split; [by vm_compute|].
  refine (proj1 (disabled_agent_should_not_execute initializeDefaultConfigs
                   "metadata_agent" _ _ None)).
  by vm_compute.
Defined.

Lemma fresh_registry_known (agent : string) :
  agent ∈ map name defaultConfigs →
  ∃ config, agentConfigs initializeDefaultConfigs !! agent = Some config
    ∧ enabled config = true.
Proof.
  intros Hin. simpl in Hin. set_unfold in Hin.
  destruct Hin as [->|[->|[->|[->|[->|[->|[->|[]]]]]]]];
    (eexists; split; [by vm_compute|reflexivity]).
Qed.

Lemma fresh_registry_unknown (agent : string) :
  agent ∉ map name defaultConfigs →
  agentConfigs initializeDefaultConfigs !! agent = None.
Proof.
  intros Hout. unfold initializeDefaultConfigs, defaultConfigs.
  cbn [foldl agentConfigs name].
  repeat (rewrite lookup_insert_ne;
          [|intros <-; apply Hout; simpl; set_solver]).
  apply lookup_empty.
Qed.

(** X9.  On a fresh registry [shouldExecuteAgent] accepts exactly the seven
    configured agents, except the international-trade agent for a document
    typed ["argentina"] and the Argentine fiscal agent for one typed
    ["international"]. *)
Theorem shouldExecuteAgent_on_fresh_registry (agent : string)
    (documentType : option string) :
  shouldExecuteAgent initializeDefaultConfigs agent documentType = true
  ↔ agent ∈ map name defaultConfigs
    ∧ ¬ (documentType = Some "argentina" ∧ agent = "international_trade_agent")
    ∧ ¬ (documentType = Some "international" ∧ agent = "argentina_fiscal_agent").
Proof.
  unfold shouldExecuteAgent.
  destruct (decide (agent ∈ map name defaultConfigs)) as [Hin|Hout].
  - destruct (fresh_registry_known agent Hin) as (config & -> & ->). simpl.
    destruct (String.eqb_spec agent "international_trade_agent") as [Htrade|Htrade];
      destruct (String.eqb_spec agent "argentina_fiscal_agent") as [Hfiscal|Hfiscal];
      try congruence; repeat case_bool_decide; simpl; split; try done;
      try (intros _; split; [done|]; split; intros [? ?]; congruence);
      try (intros (_ & H1 & H2); exfalso; first [by apply H1|by apply H2]).
  - rewrite (fresh_registry_unknown agent Hout). split; [done|]. by intros [? _].
Qed.

Lemma recordCalls_configs mgr calls :
  agentConfigs (recordCalls mgr calls) = agentConfigs mgr.
Proof.
  revert mgr. induction calls as [|c calls IH]; intros mgr; [done|].
  simpl. rewrite IH. unfold recordCall, recordAgentExecution.
  by destruct (agentMetrics mgr !! call_agent c).
Qed.

(** X10.  [resetAgentMetrics] forgets whatever was recorded for a configured
    agent: after any recorded executions its metrics are the initial ones,
    with the specialization of its current configuration, and the metrics
    of the other agents are kept. *)
Theorem resetAgentMetrics_forgets_recorded_calls mgr calls (agent : string)
    (config : AgentConfig) :
  agentConfigs mgr !! agent = Some config →
  let recorded := recordCalls mgr calls in
  fst (resetAgentMetrics recorded agent) = true
  ∧ getAgentMetrics (snd (resetAgentMetrics recorded agent)) agent
    = Some (freshMetrics agent (specialization config))
  ∧ ∀ other, other ≠ agent →
      getAgentMetrics (snd (resetAgentMetrics recorded agent)) other
      = getAgentMetrics recorded other.
Proof.
  intros Hconfig recorded. unfold resetAgentMetrics, getAgentMetrics.
  subst recorded. rewrite recordCalls_configs, Hconfig. simpl.
  split; [done|]. split; [by rewrite lookup_insert_eq|].
  intros other Hne. by rewrite lookup_insert_ne.
Qed.

Lemma resetAgentMetrics_forgets_recorded_calls_witness :
  executions
    <$> getAgentMetrics
          (snd (resetAgentMetrics (recordCalls initializeDefaultConfigs succeededTwice)
                  "classification_agent"))
          "classification_agent"
  = Some 0.
Proof.
  destruct (resetAgentMetrics_forgets_recorded_calls initializeDefaultConfigs
              succeededTwice "classification_agent" _ eq_refl) as (_ & -> & _).
  reflexivity.
Defined.

End RegistryConfiguration.

Section RegistryStatistics.

Import AgentManager RegistryScenarios.

Implicit Types (mgr : AgentManager) (usage : list (string * Z)).

Lemma foldl_add_sumZ {A} (f : A → Z) (l : list A) (a : Z) :
  foldl (λ sum x, sum + f x) a l = a + sumZ (map f l).
Proof.
  revert a. unfold sumZ. induction l as [|x l IH]; intros a; simpl; [lia|].
  rewrite IH. lia.
Qed.

Lemma sumZ_between {A} (f : A → Z) (l : list A) (lo hi : Z) :
  Forall (λ x, lo ≤ f x ≤ hi) l →
  lo * Z.of_nat (length l) ≤ sumZ (map f l) ≤ hi * Z.of_nat (length l).
Proof.
  unfold sumZ. induction 1 as [|x l Hx _ IH]; simpl length; simpl; [lia|]. nia.
Qed.

(** X11.  The statistics of an empty history are zeros and ["N/A"], with no
    division by zero.  Otherwise the average confidence is the mean of the
    final confidences of the history, and lies between any two bounds that
    hold for all of them. *)
Theorem getSystemStats_average_confidence mgr :
  let history := executionHistory mgr in
  let stats := getSystemStats mgr in
  (history = [] →
   stats = {| totalExecutions := 0; statsAverageConfidence := 0;
              averageProcessingTime := 0; mostUsedAgent := "N/A" |})
  ∧ (statsAverageConfidence stats * inject_Z (Z.of_nat (length history))
     == inject_Z (sumZ (map finalConfidence history)))%Q
  ∧ ∀ lo hi, history ≠ [] →
      Forall (λ exec, lo ≤ finalConfidence exec ≤ hi) history →
      (inject_Z lo <= statsAverageConfidence stats <= inject_Z hi)%Q.
Proof.
  cbv zeta. unfold getSystemStats. set (history := executionHistory mgr).
  split; [by intros ->|]. cbn [statsAverageConfidence].
  rewrite foldl_add_sumZ, Z.add_0_l.
  destruct history as [|exec history]; [split; [reflexivity|by intros ? ? []]|].
  change (0 <? length (exec :: history))%nat with true. cbv iota.
  set (n := Z.of_nat (length (exec :: history))).
  assert (0 < n) as Hn by (subst n; simpl length; lia).
  assert (0 < inject_Z n)%Q as Hq.
  { change 0%Q with (inject_Z 0). by rewrite <- Zlt_Qlt. }
  split.
  - rewrite Qmult_comm, Qmult_div_r; [reflexivity|]. intros H. rewrite H in Hq.
    by apply Qlt_irrefl in Hq.
  - intros lo hi _ Hall. pose proof (sumZ_between finalConfidence _ lo hi Hall) as Hs.
    fold n in Hs. split.
    + apply Qle_shift_div_l; [done|]. rewrite <- inject_Z_mult, <- Zle_Qle. lia.
    + apply Qle_shift_div_r; [done|]. rewrite <- inject_Z_mult, <- Zle_Qle. lia.
Qed.

Lemma getCount_countUse usage (agent used : string) :
  getCount agent (countUse used usage)
  = getCount agent usage + if String.eqb used agent then 1 else 0.
Proof.
  induction usage as [|[a n] usage IH]; simpl.
  - destruct (String.eqb used agent); lia.
  - destruct (String.eqb_spec a used) as [->|Hne]; simpl.
    + destruct (String.eqb used agent); lia.
    + destruct (String.eqb_spec a agent) as [->|Hne']; [|done].
      apply String.eqb_neq in Hne. rewrite String.eqb_sym in Hne.
      rewrite Hne. lia.
Qed.

Lemma countUse_keys usage (used : string) :
  map fst (countUse used usage)
  = if decide (used ∈ map fst usage) then map fst usage
    else (map fst usage ++ [used])%list.
Proof.
  induction usage as [|[a n] usage IH]; simpl; [done|].
  destruct (String.eqb_spec a used) as [->|Hne]; simpl.
  - rewrite decide_True; [done|left].
  - rewrite IH. destruct (decide (used ∈ map fst usage)).
    + rewrite decide_True; [done|by right].
    + rewrite decide_False; [done|]. set_solver.
Qed.

Lemma countUse_wf usage (used : string) :
  NoDup (map fst usage) → Forall (λ e, 1 ≤ snd e) usage →
  NoDup (map fst (countUse used usage)) ∧ Forall (λ e, 1 ≤ snd e) (countUse used usage).
Proof.
  intros Hnd Hpos. split.
  - rewrite countUse_keys. case_decide; [done|].
    apply NoDup_app. split; [done|]. split; [|apply NoDup_singleton].
    intros x Hx ->%list_elem_of_singleton. done.
  - clear Hnd. induction Hpos as [|[a n] usage Hn Hpos IH]; simpl.
    + by repeat constructor.
    + destruct (String.eqb a used); constructor; simpl in *; try done; lia.
Qed.

Lemma getCount_listed usage (agent : string) (n : Z) :
  NoDup (map fst usage) → (agent, n) ∈ usage → getCount agent usage = n.
Proof.
  induction usage as [|[a m] usage IH]; intros Hnd Hin; [by inversion Hin|].
  simpl in *. inversion Hnd as [|? ? Hnotin Hnd']; subst.
  apply elem_of_cons in Hin as [[= -> ->]|Hin].
  - by rewrite String.eqb_refl.
  - destruct (String.eqb_spec a agent) as [->|Hne]; [|by apply IH].
    exfalso. apply Hnotin. apply list_elem_of_fmap. by exists (agent, n).
Qed.

Lemma getCount_zero_or_listed usage (agent : string) :
  getCount agent usage = 0 ∨ (agent, getCount agent usage) ∈ usage.
Proof.
  induction usage as [|[a m] usage IH]; simpl; [by left|].
  destruct (String.eqb_spec a agent) as [->|Hne]; [right; left|].
  destruct IH as [?|?]; [by left|right; by right].
Qed.

Lemma insertByCount_elem (entry w : string * Z) (sorted : list (string * Z)) :
  w ∈ insertByCount entry sorted ↔ w = entry ∨ w ∈ sorted.
Proof.
  induction sorted as [|e sorted IH]; simpl.
  - rewrite list_elem_of_singleton. set_solver.
  - destruct (snd e <=? snd entry).
    + by rewrite elem_of_cons.
    + rewrite !elem_of_cons, IH. tauto.
Qed.

Lemma sortByCount_elem (w : string * Z) (entries : list (string * Z)) :
  w ∈ sortByCount entries ↔ w ∈ entries.
Proof.
  unfold sortByCount. induction entries as [|x entries IH]; simpl; [done|].
  rewrite insertByCount_elem, IH, elem_of_cons. tauto.
Qed.

Lemma insertByCount_headIsLargest (entry : string * Z) (sorted : list (string * Z)) :
  headIsLargest sorted → headIsLargest (insertByCount entry sorted).
Proof.
  destruct sorted as [|e sorted]; simpl; [by constructor|]. intros Hall.
  destruct (Z.leb_spec (snd e) (snd entry)) as [Hle|Hgt]; simpl.
  - constructor; [done|]. eapply Forall_impl; [exact Hall|]. simpl. intros; lia.
  - apply Forall_forall. intros w Hw. apply insertByCount_elem in Hw as [->|Hw]; [lia|].
    rewrite Forall_forall in Hall. by apply Hall.
Qed.

Lemma sortByCount_headIsLargest (entries : list (string * Z)) :
  headIsLargest (sortByCount entries).
Proof.
  unfold sortByCount. induction entries as [|x entries IH]; simpl; [done|].
  by apply insertByCount_headIsLargest.
Qed.

Lemma sortByCount_head (entries : list (string * Z)) (e : string * Z)
    (rest : list (string * Z)) :
  sortByCount entries = e :: rest →
  e ∈ entries ∧ ∀ w, w ∈ entries → snd w ≤ snd e.
Proof.
  intros Hs. split.
  - apply sortByCount_elem. rewrite Hs. left.
  - intros w Hw. apply sortByCount_elem in Hw. rewrite Hs in Hw.
    pose proof (sortByCount_headIsLargest entries) as Hh. rewrite Hs in Hh.
    simpl in Hh. rewrite Forall_forall in Hh.
    apply elem_of_cons in Hw as [->|Hw]; [lia|by apply Hh].
Qed.

Lemma countUses_getCount usage (agent : string) (used : list string) :
  getCount agent (foldl (λ usage a, countUse a usage) usage used)
  = getCount agent usage + Z.of_nat (length (filter (λ a, a = agent) used)).
Proof.
  revert usage. induction used as [|a used IH]; intros usage; simpl; [lia|].
  rewrite IH, getCount_countUse, filter_cons.
  destruct (String.eqb_spec a agent) as [->|Hne].
  - rewrite decide_True by done. simpl. lia.
  - rewrite decide_False by done. lia.
Qed.

Lemma countUses_wf usage (used : list string) :
  NoDup (map fst usage) → Forall (λ e, 1 ≤ snd e) usage →
  NoDup (map fst (foldl (λ usage a, countUse a usage) usage used))
  ∧ Forall (λ e, 1 ≤ snd e) (foldl (λ usage a, countUse a usage) usage used).
Proof.
  revert usage. induction used as [|a used IH]; intros usage Hnd Hpos; [done|].
  simpl. destruct (countUse_wf usage a Hnd Hpos). by apply IH.
Qed.

Lemma agentUsageOf_spec (history : list SystemExecution) :
  (∀ agent, getCount agent (agentUsageOf history) = uses agent history)
  ∧ NoDup (map fst (agentUsageOf history))
  ∧ Forall (λ e, 1 ≤ snd e) (agentUsageOf history).
Proof.
  unfold agentUsageOf.
  induction history as [|exec history IH] using rev_ind.
  - split; [done|]. split; [constructor|constructor].
  - rewrite foldl_app. simpl. destruct IH as (Hcount & Hnd & Hpos).
    split; [|by apply countUses_wf].
    intros agent. rewrite countUses_getCount, Hcount.
    unfold uses. rewrite map_app. unfold sumZ. rewrite foldr_app. simpl.
    generalize (Z.of_nat (length (filter (λ a, a = agent) (agentsUsed exec)))).
    intros k. clear. induction history as [|e history IH]; simpl; lia.
Qed.

(** X12.  When [getSystemStats] names a most-used agent, no agent is named
    more often by the executions of the history than that one, and it is
    named at least once. *)
Theorem mostUsedAgent_is_most_used mgr (top : string) :
  mostUsedAgent (getSystemStats mgr) = top → top ≠ "N/A" →
  0 < uses top (executionHistory mgr)
  ∧ ∀ agent, uses agent (executionHistory mgr) ≤ uses top (executionHistory mgr).
Proof.
  unfold getSystemStats. cbn [mostUsedAgent].
  destruct (agentUsageOf_spec (executionHistory mgr)) as (Hcount & Hnd & Hpos).
  destruct (sortByCount (agentUsageOf (executionHistory mgr)))
    as [|[first n] rest] eqn:Es; [congruence|].
  destruct (String.eqb first ""); [congruence|]. intros <- _.
  destruct (sortByCount_head _ _ _ Es) as [Hin Hmax].
  assert (uses first (executionHistory mgr) = n) as Hn.
  { rewrite <- Hcount. by apply getCount_listed. }
  rewrite Forall_forall in Hpos. pose proof (Hpos _ Hin) as Hone. simpl in Hone.
  split; [lia|]. intros agent. rewrite Hn, <- Hcount.
  destruct (getCount_zero_or_listed (agentUsageOf (executionHistory mgr)) agent)
    as [->|Hlisted]; [lia|].
  apply (Hmax _ Hlisted).
Qed.

Lemma mostUsedAgent_is_most_used_witness :
  uses "classification_agent" threeRuns ≤ uses "metadata_agent" threeRuns.
Proof.
  refine (proj2 (mostUsedAgent_is_most_used (registryWith threeRuns)
                   "metadata_agent" _ _) "classification_agent").
  - by vm_compute.
  - discriminate.
Defined.

End RegistryStatistics.

(** * Further properties of the controller *)

(** ** Consolidation *)

Section Provenance.

Implicit Types (c : gmap string JsValue) (r : AgentResult) (k : string).

Lemma foldl_mergeResult_origin c (rs : list AgentResult) k (v : JsValue) :
  foldl mergeResult c rs !! k = Some v →
  c !! k = Some v
  ∨ (nonEmpty v = true ∧ ∃ r, r ∈ rs ∧ extractedData r !! k = Some v).
Proof.
  revert c. induction rs as [|r rs IH]; intros c Hv; [by left|].
  simpl in Hv. destruct (IH _ Hv) as [Hm|(Hne & r' & Hin & Hr')].
  - rewrite lookup_mergeResult in Hm.
    destruct (extractedData r !! k) as [w|] eqn:Ew; [|by left].
    destruct (accepts (confidence r) c k w) eqn:Ea; [|by left].
    injection Hm as ->. right. unfold accepts in Ea.
    apply andb_true_iff in Ea as [Hne _]. split; [done|].
    exists r. split; [left|done].
  - right. split; [done|]. exists r'. split; [by right|done].
Qed.

Lemma mergeResult_carried_is_Some c r k :
  carries r k = true → is_Some (mergeResult c r !! k).
Proof.
  unfold carries. rewrite lookup_mergeResult.
  destruct (extractedData r !! k) as [w|]; [|done]. intros Hne.
  unfold accepts, prop. rewrite Hne. simpl.
  destruct (c !! k) as [v|]; simpl; [|by eexists].
  destruct (negb (truthy v) || (75 <? confidence r)); by eexists.
Qed.

Lemma foldl_mergeResult_low_keeps c (rs : list AgentResult) k (v : JsValue) :
  c !! k = Some v → truthy v = true →
  Forall (λ r, confidence r ≤ 75) rs →
  foldl mergeResult c rs !! k = Some v.
Proof.
  revert c. induction rs as [|r rs IH]; intros c Hk Ht Hlow; [done|].
  inversion Hlow; subst. simpl. apply IH; [|done|done].
  by apply mergeResult_low_keeps.
Qed.

End Provenance.

(** X13.  Every value of the consolidated mapping is non-null and non-empty,
    and is the value some agent result holds for that field: consolidation
    invents nothing and stores no blank. *)
Theorem consolidated_values_come_from_results (rs : list AgentResult)
    (k : string) (v : JsValue) :
  consolidateAgentResults rs !! k = Some v →
  nonEmpty v = true ∧ ∃ r, r ∈ rs ∧ extractedData r !! k = Some v.
Proof.
  intros Hv. destruct (foldl_mergeResult_origin ∅ rs k v Hv) as [Hempty|H]; [|done].
  by rewrite lookup_empty in Hempty.
Qed.

Lemma consolidated_values_come_from_results_witness :
  nonEmpty (JNum 30250) = true
  ∧ ∃ r, r ∈ scenarioA ∧ extractedData r !! "totalAmount" = Some (JNum 30250).
Proof.
  apply (consolidated_values_come_from_results scenarioA "totalAmount").
  by vm_compute.
Defined.

(** X14.  The fields of the consolidated mapping are exactly the fields for
    which some result carries a non-null, non-empty value: no carried field
    is lost, whatever the confidences. *)
Theorem consolidated_fields_are_carried_fields (rs : list AgentResult) (k : string) :
  is_Some (consolidateAgentResults rs !! k) ↔ ∃ r, r ∈ rs ∧ carries r k = true.
Proof.
  split.
  - intros [v Hv].
    destruct (foldl_mergeResult_origin ∅ rs k v Hv) as [H|(Hne & r & Hin & Hr)].
    + by rewrite lookup_empty in H.
    + exists r. split; [done|]. unfold carries. by rewrite Hr.
  - intros (r & Hin & Hr). unfold consolidateAgentResults.
    apply list_elem_of_split in Hin as (l1 & l2 & ->).
    rewrite foldl_app. simpl. apply foldl_mergeResult_is_Some.
    by apply mergeResult_carried_is_Some.
Qed.

(** X15.  Among results of confidence at most 75 the first value wins: when
    a result is the first to carry a field, with a truthy value, and every
    later result has a confidence of at most 75, the consolidated mapping
    holds that first value. *)
Theorem first_value_wins_among_low_confidence
    (l1 l2 : list AgentResult) (r : AgentResult) (k : string) (v : JsValue) :
  Forall (λ r', carries r' k = false) l1 →
  extractedData r !! k = Some v → truthy v = true →
  Forall (λ r', confidence r' ≤ 75) l2 →
  consolidateAgentResults (l1 ++ r :: l2) !! k = Some v.
Proof.
  intros Hl1 Hv Ht Hl2. unfold consolidateAgentResults.
  rewrite foldl_app. simpl. apply foldl_mergeResult_low_keeps; [|done|done].
  apply mergeResult_absent; [|done|].
  - rewrite foldl_mergeResult_not_carried by done. apply lookup_empty.
  - by destruct v as [| |b|n|s|l|o].
Qed.

Lemma first_value_wins_among_low_confidence_witness :
  consolidateAgentResults
    ([result "metadata_agent" {[ "documentType" := JStr "factura_a" ]} 60
        ["file_analysis"]]
     ++ result "classification_agent" {[ "documentOrigin" := JStr "argentina" ]} 70
          ["document_type"]
     :: [result "international_trade_agent"
           {[ "documentOrigin" := JStr "international" ]} 45 ["international_trade"]])
    !! "documentOrigin" = Some (JStr "argentina").
Proof.
  apply (first_value_wins_among_low_confidence _ _ _ "documentOrigin").
  - repeat constructor.
  - reflexivity.
  - reflexivity.
  - repeat constructor; simpl; lia.
Defined.

(** ** The overall confidence *)

Lemma sums_between (rs : list AgentResult) (lo hi : Z) :
  Forall (λ r, lo ≤ confidence r ≤ hi ∧ specialization r ≠ []) rs →
  lo * sumWeights rs ≤ sumWeighted rs ≤ hi * sumWeights rs
  ∧ Z.of_nat (length rs) ≤ sumWeights rs.
Proof.
  induction 1 as [|r rs [Hc Hs] _ IH]; unfold sumWeighted, sumWeights in *; simpl.
  - lia.
  - assert (1 ≤ Z.of_nat (length (specialization r))).
    { destruct (specialization r); [done|simpl; lia]. }
    nia.
Qed.

(** X16.  The overall confidence of a non-empty list of results lies between
    the smallest and the largest of their confidences (rounding never
    leaves the range); results that all report the same confidence give
    exactly that confidence. *)
Theorem overall_confidence_between_extremes (rs : list AgentResult) (lo hi : Z) :
  rs ≠ [] →
  Forall (λ r, lo ≤ confidence r ≤ hi ∧ specialization r ≠ []) rs →
  lo ≤ calculateOverallConfidence rs ≤ hi.
Proof.
  intros Hne Hrs. unfold calculateOverallConfidence.
  destruct rs as [|r rs]; [done|].
  change (length (r :: rs) =? 0)%nat with false. cbv iota.
  rewrite weightedSum_sum, totalWeight_sum.
  destruct (sums_between _ lo hi Hrs) as [[Hlo Hhi] Hlen].
  simpl length in Hlen.
  set (s := sumWeighted (r :: rs)) in *. set (t := sumWeights (r :: rs)) in *.
  assert (0 < t) as Ht by lia.
  assert (0 < inject_Z t)%Q as Hq.
  { change 0%Q with (inject_Z 0). by rewrite <- Zlt_Qlt. }
  apply Math_round_bounds.
  - apply Qle_shift_div_l; [done|]. rewrite <- inject_Z_mult, <- Zle_Qle. lia.
  - apply Qle_shift_div_r; [done|]. rewrite <- inject_Z_mult, <- Zle_Qle. lia.
Qed.

Lemma overall_confidence_between_extremes_witness :
  60 ≤ calculateOverallConfidence scenarioA ≤ 90.
Proof.
  apply (overall_confidence_between_extremes scenarioA 60 90).
  - discriminate.
  - unfold scenarioA.
    repeat (apply List.Forall_cons; [split; [simpl; lia|discriminate]|]).
    apply List.Forall_nil.
Defined.

(** ** The shape of a run *)

Section RunShape.

Variable env : Environment.

Lemma runIterations_cases (params : Params) (w : World) :
  let s1 := runIteration1_BaseAnalysis env params w in
  let s2 := runIteration2_SpecializedRefinement env params (fst s1) (snd s1) in
  let s3 := runIteration3_FinalVerification env params (fst s2) (snd s2) in
  runIterations env params w =
  if requiresNextIteration (fst s1) && (overallConfidence (fst s1) <? 90)
  then if requiresNextIteration (fst s2) && (overallConfidence (fst s2) <? 95)
       then ([fst s1; fst s2; fst s3], fst s3, snd s3)
       else ([fst s1; fst s2], fst s2, snd s2)
  else ([fst s1], fst s1, snd s1).
Proof.
  intros s1 s2 s3. subst s1 s2 s3. unfold runIterations. step.
  destruct (runIteration1_BaseAnalysis env params w) as [it1 w1]. simpl.
  destruct (requiresNextIteration it1 && (overallConfidence it1 <? 90)); [|done].
  destruct (runIteration2_SpecializedRefinement env params it1 w1) as [it2 w2]. simpl.
  destruct (requiresNextIteration it2 && (overallConfidence it2 <? 95)); [|done].
  by destruct (runIteration3_FinalVerification env params it2 w2) as [it3 w3].
Qed.

Lemma run_result (params : Params) (w : World) :
  let its := fst (fst (runIterations env params w)) in
  let final := snd (fst (runIterations env params w)) in
  let used := foldl (λ used it, addAgents used (agentResults it)) [] its in
  fst (processDocumentOrchestrated env params w)
  = {| iterations := its;
       finalResult := consolidatedData final;
       processingMetrics :=
         {| totalTime := runTime env; iterationsUsed := length its;
            agentsInvolved := used; finalConfidence := overallConfidence final |};
       resultApiCallLogs := apiCallLogs (snd (runIterations env params w)) |}
  ∧ snd (processDocumentOrchestrated env params w)
    = {| manager :=
           AgentManager.recordSystemExecution
             (manager (snd (runIterations env params w)))
             {| AgentManager.timestamp := now env;
                AgentManager.documentId := documentId params;
                AgentManager.agentsUsed := used;
                AgentManager.finalConfidence := overallConfidence final;
                AgentManager.iterationsUsed := length its;
                AgentManager.totalTime := runTime env |};
         apiCallLogs := apiCallLogs (snd (runIterations env params w));
         backendCalls := backendCalls (snd (runIterations env params w)) |}.
Proof.
  unfold processDocumentOrchestrated. step.
  by destruct (runIterations env params w) as [[its final] w'].
Qed.

Lemma stage1_names (params : Params) (w : World) :
  map agentName (agentResults (fst (runIteration1_BaseAnalysis env params w)))
  = ["classification_agent"; "structural_extraction_agent"; "metadata_agent"].
Proof.
  unfold runIteration1_BaseAnalysis, Promise_all, runClassificationAgent,
    runStructuralExtractionAgent, runMetadataAgent. step.
  destruct (complete env "classification_agent" _) as [?|? ? ?]; simpl;
    by destruct (complete env "structural_extraction_agent" _) as [?|? ? [?|]].
Qed.

(** The agents Stage 2 invokes, read off the origin Stage 1 consolidated. *)
Lemma stage2_names (params : Params) (previous : IterationResult) (w : World) :
  let origin := prop (consolidatedData previous) "documentOrigin" in
  map agentName
    (agentResults (fst (runIteration2_SpecializedRefinement env params previous w)))
  = ((if isString origin "argentina" || isString origin "unknown"
      then ["argentina_fiscal_agent"] else []) ++
     (if isString origin "international" || isString origin "unknown"
      then ["international_trade_agent"] else []))%list.
Proof.
  unfold runIteration2_SpecializedRefinement, specializationAgents,
    identifyConflicts. simpl.
  destruct (isString _ "argentina" || isString _ "unknown");
    destruct (isString _ "international" || isString _ "unknown");
    unfold Promise_all, runArgentineFiscalAgent, runInternationalTradeAgent;
    step; repeat (destruct (complete env _ _) as [?|? ? ?]; simpl); done.
Qed.

Lemma stage3_names (params : Params) (previous : IterationResult) (w : World) :
  map agentName
    (agentResults (fst (runIteration3_FinalVerification env params previous w)))
  = ["cross_validation_agent"].
Proof.
  unfold runIteration3_FinalVerification, runCrossValidationAgent. step.
  by destruct (complete env _ _) as [?|? ? ?].
Qed.

End RunShape.

(** ** The agents of Stage 2 *)

Lemma isString_carriesOrigin (data : gmap string JsValue) (origin : string) :
  isString (prop data "documentOrigin") origin = true ↔ carriesOrigin data origin.
Proof.
  unfold isString, prop, carriesOrigin.
  destruct (data !! "documentOrigin") as [[| | | |s| |]|]; simpl; try (split; done).
  destruct (String.eqb_spec s origin) as [->|Hne]; split; try done.
  intros [= ->]. done.
Qed.

(** X17.  Stage 2 invokes the fiscal agent alone for an origin consolidated
    as ["argentina"], the trade agent alone for ["international"], both, in
    that order, for ["unknown"]; the conflict-resolution agent is never
    among them, whatever Stage 1 reported, since [identifyConflicts] finds
    nothing. *)
Theorem stage2_agents_follow_origin
    (env : Environment) (params : Params) (previous : IterationResult) (w : World) :
  let data := consolidatedData previous in
  let names :=
    map agentName
      (agentResults (fst (runIteration2_SpecializedRefinement env params previous w))) in
  (carriesOrigin data "argentina" → names = ["argentina_fiscal_agent"])
  ∧ (carriesOrigin data "international" → names = ["international_trade_agent"])
  ∧ (carriesOrigin data "unknown"
     → names = ["argentina_fiscal_agent"; "international_trade_agent"])
  ∧ "conflict_resolution_agent" ∉ names.
Proof.
  cbv zeta. rewrite stage2_names. cbv zeta.
  split; [|split; [|split]].
  - intros H. unfold carriesOrigin in H. unfold prop. by rewrite H.
  - intros H. unfold carriesOrigin in H. unfold prop. by rewrite H.
  - intros H. unfold carriesOrigin in H. unfold prop. by rewrite H.
  - destruct (_ || _); destruct (_ || _); simpl; set_solver.
Qed.

(** X18.  When the consolidated origin is none of ["argentina"],
    ["international"] and ["unknown"] (the field is missing, is not a
    string, or is spelled otherwise), Stage 2 invokes no agent and changes
    nothing: it returns an empty result list, an overall confidence of 0
    and the consolidated data of Stage 1, and asks for Stage 3 exactly when
    a critical field is missing. *)
Theorem stage2_without_known_origin
    (env : Environment) (params : Params) (previous : IterationResult) (w : World) :
  (∀ origin, carriesOrigin (consolidatedData previous) origin →
             origin ∉ ["argentina"; "international"; "unknown"]) →
  runIteration2_SpecializedRefinement env params previous w
  = ({| iterationNumber := 2;
        agentResults := [];
        consolidatedData := consolidateAgentResults (agentResults previous);
        overallConfidence := 0;
        requiresNextIteration :=
          hasSignificantUncertainty (consolidateAgentResults (agentResults previous));
        reasonForNextIteration :=
          Some "Verificación final para campos de alta importancia" |}, w).
Proof.
  intros Hnone.
  assert (∀ origin, origin ∈ ["argentina"; "international"; "unknown"] →
            isString (prop (consolidatedData previous) "documentOrigin") origin
            = false) as Hno.
  { intros origin Hin.
    destruct (isString _ origin) eqn:E; [|done].
    apply isString_carriesOrigin in E. by apply Hnone in E. }
  unfold runIteration2_SpecializedRefinement, specializationAgents,
    identifyConflicts.
  rewrite !Hno by set_solver. simpl. unfold mbind, M_bind, mret, M_ret. simpl.
  by rewrite app_nil_r.
Qed.

Lemma stage2_without_known_origin_witness :
  agentResults
    (fst (runIteration2_SpecializedRefinement (environment backendDown) invoicePdf
            emptyContext initialWorld)) = []
  ∧ snd (runIteration2_SpecializedRefinement (environment backendDown) invoicePdf
           emptyContext initialWorld) = initialWorld.
Proof.
  rewrite (stage2_without_known_origin (environment backendDown) invoicePdf
             emptyContext initialWorld).
  - split; reflexivity.
  - intros origin Hc. vm_compute in Hc. discriminate.
Defined.

(** ** What a run reports *)

Lemma addAgents_spec (used : list string) (results : list AgentResult) :
  NoDup used →
  NoDup (addAgents used results)
  ∧ ∀ name, name ∈ addAgents used results
            ↔ name ∈ used ∨ ∃ r, r ∈ results ∧ agentName r = name.
Proof.
  unfold addAgents. revert used.
  induction results as [|r results IH]; intros used Hnd; simpl.
  - split; [done|]. intros name. split; [by left|]. intros [?|(r & Hr & _)]; [done|].
    by inversion Hr.
  - destruct (decide (agentName r ∈ used)) as [Hin|Hout].
    + destruct (IH used Hnd) as [Hnd' Hmem]. split; [done|].
      intros name. rewrite Hmem. split.
      * intros [?|(r' & Hr' & <-)]; [by left|]. right. exists r'. split; [by right|done].
      * intros [?|(r' & Hr' & <-)]; [by left|].
        apply elem_of_cons in Hr' as [->|Hr']; [by left|]. right. by exists r'.
    + assert (NoDup (used ++ [agentName r])) as Hnd2.
      { apply NoDup_app. split; [done|]. split; [|apply NoDup_singleton].
        intros x Hx ->%list_elem_of_singleton. done. }
      destruct (IH _ Hnd2) as [Hnd' Hmem]. split; [done|].
      intros name. rewrite Hmem, elem_of_app, list_elem_of_singleton. split.
      * intros [[? | ->]|(r' & Hr' & <-)]; [by left| |].
        -- right. exists r. split; [left|done].
        -- right. exists r'. split; [by right|done].
      * intros [?|(r' & Hr' & <-)]; [by left; left|].
        apply elem_of_cons in Hr' as [->|Hr']; [left; by right|]. right. by exists r'.
Qed.

Lemma agentsUsed_spec (used : list string) (its : list IterationResult) :
  NoDup used →
  NoDup (foldl (λ used it, addAgents used (agentResults it)) used its)
  ∧ ∀ name, name ∈ foldl (λ used it, addAgents used (agentResults it)) used its
            ↔ name ∈ used
              ∨ ∃ it r, it ∈ its ∧ r ∈ agentResults it ∧ agentName r = name.
Proof.
  revert used. induction its as [|it its IH]; intros used Hnd; simpl.
  - split; [done|]. intros name. split; [by left|].
    intros [?|(it & r & Hit & _)]; [done|by inversion Hit].
  - destruct (addAgents_spec used (agentResults it) Hnd) as [Hnd1 Hm1].
    destruct (IH _ Hnd1) as [Hnd2 Hm2]. split; [done|].
    intros name. rewrite Hm2, Hm1. split.
    + intros [[?|(r & Hr & <-)]|(it' & r & Hit & Hr & <-)]; [by left| |].
      * right. exists it, r. split; [left|done].
      * right. exists it', r. split; [by right|done].
    + intros [?|(it' & r & Hit & Hr & <-)]; [by left; left|].
      apply elem_of_cons in Hit as [->|Hit].
      * left. right. by exists r.
      * right. by exists it', r.
Qed.

(** The iterations of a run, with what is known of each. *)
Lemma run_iterations_options (env : Environment) (params : Params) (w : World) :
  ∃ it1 it2 it3,
    map agentName (agentResults it1)
    = ["classification_agent"; "structural_extraction_agent"; "metadata_agent"]
    ∧ (∀ r, r ∈ agentResults it2 →
         agentName r ∈ ["argentina_fiscal_agent"; "international_trade_agent"])
    ∧ map agentName (agentResults it3) = ["cross_validation_agent"]
    ∧ iterationNumber it1 = 1%nat ∧ iterationNumber it2 = 2%nat
    ∧ iterationNumber it3 = 3%nat
    ∧ (fst (runIterations env params w) = ([it1], it1)
       ∨ fst (runIterations env params w) = ([it1; it2], it2)
       ∨ fst (runIterations env params w) = ([it1; it2; it3], it3)).
Proof.
  rewrite runIterations_cases. cbv zeta.
  pose proof (stage1_names env params w) as H1.
  assert (iterationNumber (fst (runIteration1_BaseAnalysis env params w)) = 1%nat)
    as N1.
  { unfold runIteration1_BaseAnalysis, mbind, M_bind. by destruct (Promise_all _ w). }
  set (s1 := runIteration1_BaseAnalysis env params w) in *.
  pose proof (stage2_names env params (fst s1) (snd s1)) as H2.
  assert (iterationNumber
            (fst (runIteration2_SpecializedRefinement env params (fst s1) (snd s1)))
          = 2%nat) as N2.
  { unfold runIteration2_SpecializedRefinement, mbind, M_bind.
    by destruct (Promise_all _ (snd s1)). }
  set (s2 := runIteration2_SpecializedRefinement env params (fst s1) (snd s1)) in *.
  pose proof (stage3_names env params (fst s2) (snd s2)) as H3.
  assert (iterationNumber
            (fst (runIteration3_FinalVerification env params (fst s2) (snd s2)))
          = 3%nat) as N3.
  { unfold runIteration3_FinalVerification, mbind, M_bind.
    by destruct (runCrossValidationAgent env params (fst s2) (snd s2)). }
  set (s3 := runIteration3_FinalVerification env params (fst s2) (snd s2)) in *.
  cbv zeta in H2. clearbody s3. clearbody s2. clearbody s1.
  exists (fst s1), (fst s2), (fst s3).
  split; [done|]. split.
  { intros r Hr.
    assert (agentName r ∈ map agentName (agentResults (fst s2))) as Hn.
    { apply list_elem_of_fmap. by exists r. }
    rewrite H2 in Hn. revert Hn.
    destruct (_ || _); destruct (_ || _); cbn [app];
      rewrite ?elem_of_cons, ?elem_of_nil; tauto. }
  split; [done|]. split; [done|]. split; [done|]. split; [done|].
  destruct (_ && _); [destruct (_ && _)|]; cbn [fst]; tauto.
Qed.

(** X19.  The agents a run reports as involved are, without repetition, the
    names of the agent results of its iterations.  The three agents of
    Stage 1 are always among them and the conflict-resolution agent never
    is: no run invokes it. *)
Theorem agents_involved_are_the_agents_that_ran
    (env : Environment) (params : Params) (w : World) :
  let run := fst (processDocumentOrchestrated env params w) in
  let involved := agentsInvolved (processingMetrics run) in
  NoDup involved
  ∧ (∀ name, name ∈ involved
             ↔ ∃ it r, it ∈ iterations run ∧ r ∈ agentResults it ∧ agentName r = name)
  ∧ (∀ name, name ∈ ["classification_agent"; "structural_extraction_agent";
                     "metadata_agent"] → name ∈ involved)
  ∧ "conflict_resolution_agent" ∉ involved.
Proof.
  cbv zeta. destruct (run_result env params w) as [-> _].
  cbn [processingMetrics agentsInvolved iterations].
  destruct (run_iterations_options env params w)
    as (it1 & it2 & it3 & H1 & H2 & H3 & _ & _ & _ & Hits).
  set (its := fst (fst (runIterations env params w))).
  assert (its = [it1] ∨ its = [it1; it2] ∨ its = [it1; it2; it3]) as Hits'.
  { subst its. destruct Hits as [->|[->| ->]]; tauto. }
  clearbody its. clear Hits.
  destruct (agentsUsed_spec [] its (NoDup_nil_2)) as [Hnd Hmem].
  assert (∀ name : string,
            name ∈ foldl (λ used it, addAgents used (agentResults it)) [] its
            ↔ ∃ it r, it ∈ its ∧ r ∈ agentResults it ∧ agentName r = name) as Hmem'.
  { intros name. rewrite Hmem. split; [|by right]. intros [H|H]; [by inversion H|done]. }
  split; [done|]. split; [done|]. split.
  - intros name Hname. apply Hmem'. exists it1.
    assert (name ∈ map agentName (agentResults it1)) as Hn by (by rewrite H1).
    apply list_elem_of_fmap in Hn as (r & -> & Hr). exists r.
    split; [|done]. destruct Hits' as [->|[->| ->]]; left.
  - intros Hin. apply Hmem' in Hin as (it & r & Hit & Hr & Hname).
    assert (it = it1 ∨ it = it2 ∨ it = it3) as Hwhich.
    { destruct Hits' as [->|[->| ->]];
        rewrite ?elem_of_cons, ?elem_of_nil in Hit; tauto. }
    destruct Hwhich as [->|[->| ->]].
    + assert (agentName r ∈ map agentName (agentResults it1)) as Hn.
      { apply list_elem_of_fmap. by exists r. }
      rewrite H1, Hname in Hn.
      rewrite ?elem_of_cons, ?elem_of_nil in Hn.
      destruct Hn as [?|[?|[?|?]]]; done.
    + pose proof (H2 r Hr) as Hn. rewrite Hname in Hn.
      rewrite ?elem_of_cons, ?elem_of_nil in Hn.
      destruct Hn as [?|[?|?]]; done.
    + assert (agentName r ∈ map agentName (agentResults it3)) as Hn.
      { apply list_elem_of_fmap. by exists r. }
      rewrite H3, Hname in Hn.
      rewrite ?elem_of_cons, ?elem_of_nil in Hn.
      destruct Hn as [?|?]; done.
Qed.

(** X20.  The iterations of a run are numbered 1, 2, ... without gap; the
    run reports their count, and its final result and final confidence are
    the consolidated data and the overall confidence of the last one. *)
Theorem iterations_are_numbered_and_the_last_is_final
    (env : Environment) (params : Params) (w : World) :
  let run := fst (processDocumentOrchestrated env params w) in
  map iterationNumber (iterations run) = seq 1 (length (iterations run))
  ∧ iterationsUsed (processingMetrics run) = length (iterations run)
  ∧ ∃ final, last (iterations run) = Some final
      ∧ finalResult run = consolidatedData final
      ∧ finalConfidence (processingMetrics run) = overallConfidence final.
Proof.
  cbv zeta. destruct (run_result env params w) as [-> _].
  cbn [iterations processingMetrics iterationsUsed finalResult finalConfidence].
  destruct (run_iterations_options env params w)
    as (it1 & it2 & it3 & _ & _ & _ & N1 & N2 & N3 & Hits).
  destruct Hits as [->|[->| ->]]; cbn [fst snd map length seq];
    rewrite ?N1, ?N2, ?N3; (split; [done|]); (split; [done|]); by eexists.
Qed.

Lemma hasSignificantUncertainty_spec (data : gmap string JsValue) :
  hasSignificantUncertainty data = true
  ↔ ∃ field, field ∈ criticalFields ∧ truthy (prop data field) = false.
Proof.
  unfold hasSignificantUncertainty. rewrite existsb_exists. split.
  - intros (field & Hin & Hf). exists field. split; [by apply list_elem_of_In|].
    apply orb_true_iff in Hf as [Hf|Hf].
    + by apply negb_true_iff in Hf.
    + by destruct (prop data field).
  - intros (field & Hin & Hf). exists field. split; [by apply list_elem_of_In|].
    by rewrite Hf.
Qed.

(** X21.  A run enters Stage 3 exactly when it entered Stage 2, the overall
    confidence of Stage 2 is below 95 and one of the critical fields
    ([totalAmount], [invoiceNumber], [providerName], [customerName]) is
    missing from the consolidated data of Stage 2 or holds a falsy value
    there (such as a total of 0). *)
Theorem stage3_entered_iff_uncertain
    (env : Environment) (params : Params) (w : World) :
  let its := iterations (fst (processDocumentOrchestrated env params w)) in
  length its = 3%nat
  ↔ ∃ it2, its !! 1%nat = Some it2
      ∧ overallConfidence it2 < 95
      ∧ ∃ field, field ∈ criticalFields
          ∧ truthy (prop (consolidatedData it2) field) = false.
Proof.
  cbv zeta. rewrite iterations_cases. cbv zeta.
  set (s1 := runIteration1_BaseAnalysis env params w).
  assert (requiresNextIteration
            (fst (runIteration2_SpecializedRefinement env params (fst s1) (snd s1)))
          = (overallConfidence
               (fst (runIteration2_SpecializedRefinement env params (fst s1) (snd s1)))
             <? 95)
            && hasSignificantUncertainty
                 (consolidatedData
                    (fst (runIteration2_SpecializedRefinement env params
                            (fst s1) (snd s1))))) as Hreq.
  { unfold runIteration2_SpecializedRefinement, mbind, M_bind.
    by destruct (Promise_all _ (snd s1)). }
  set (s2 := runIteration2_SpecializedRefinement env params (fst s1) (snd s1)) in *.
  rewrite Hreq.
  destruct (requiresNextIteration (fst s1) && (overallConfidence (fst s1) <? 90)).
  2:{ simpl. split; [done|]. by intros (? & ? & _). }
  destruct (Z.ltb_spec (overallConfidence (fst s2)) 95) as [H95|H95]; simpl.
  - destruct (hasSignificantUncertainty (consolidatedData (fst s2))) eqn:Eu; simpl.
    + split; [|done]. intros _. exists (fst s2). split; [done|]. split; [done|].
      by apply hasSignificantUncertainty_spec.
    + split; [done|]. intros (it2 & [= <-] & _ & Hf).
      apply hasSignificantUncertainty_spec in Hf. congruence.
  - split; [done|]. intros (it2 & [= <-] & Hlt & _). lia.
Qed.

(** ** Effects of the controller on its world *)

Section Steps.

Variable R : World → World → Prop.
Hypothesis R_refl : ∀ w, R w w.
Hypothesis R_trans : ∀ w1 w2 w3, R w1 w2 → R w2 w3 → R w1 w3.

Lemma steps_ret {A} (a : A) : steps R (mret a).
Proof. intros w. apply R_refl. Qed.

Lemma steps_bind {A B} (m : M A) (f : A → M B) :
  steps R m → (∀ a, steps R (f a)) → steps R (m ≫= f).
Proof.
  intros Hm Hf w. unfold mbind, M_bind. specialize (Hm w).
  destruct (m w) as [a w1]. simpl in Hm. eapply R_trans; [exact Hm|apply Hf].
Qed.

Lemma steps_Promise_all {A} (tasks : list (M A)) :
  Forall (steps R) tasks → steps R (Promise_all tasks).
Proof.
  induction 1 as [|task tasks Htask _ IH]; simpl; [apply steps_ret|].
  apply steps_bind; [done|]. intros a.
  apply steps_bind; [done|]. intros others. apply steps_ret.
Qed.

Variable env : Environment.
Hypothesis create_steps : ∀ name, steps R (messages_create env name).
Hypothesis log_steps : ∀ name response t, steps R (logApiCall name response t).

Ltac walk :=
  cbv zeta;
  repeat first
    [ apply steps_ret
    | apply create_steps
    | apply log_steps
    | assumption
    | apply steps_bind; [|intros ?]
    | match goal with
      | |- steps _ (match ?c with _ => _ end) => destruct c
      end ].

Lemma refinement_steps (a : Agent) (params : Params) (context : IterationResult) :
  a ≠ Classification → a ≠ Structural → steps R (invoke env a params context).
Proof.
  intros Hc Hs.
  destruct a; try done;
    unfold invoke, runArgentineFiscalAgent, runInternationalTradeAgent,
      runConflictResolutionAgent, runCrossValidationAgent; walk.
Qed.

Lemma specialization_steps (params : Params) (previous : IterationResult) :
  Forall (steps R) (specializationAgents env params previous).
Proof.
  unfold specializationAgents.
  repeat match goal with |- context [if ?b then _ else _] => destruct b end;
    cbn [app];
    repeat first
      [ apply List.Forall_nil
      | apply List.Forall_cons;
        [ lazymatch goal with
          | |- steps _ (runArgentineFiscalAgent _ ?p ?c) =>
              by apply (refinement_steps ArgentineFiscal p c)
          | |- steps _ (runInternationalTradeAgent _ ?p ?c) =>
              by apply (refinement_steps InternationalTrade p c)
          | |- steps _ (runConflictResolutionAgent _ ?p ?c _) =>
              by apply (refinement_steps ConflictResolution p c)
          end | ] ].
Qed.

Lemma stage2_steps (params : Params) (previous : IterationResult) :
  steps R (runIteration2_SpecializedRefinement env params previous).
Proof.
  unfold runIteration2_SpecializedRefinement.
  apply steps_bind; [|intros ?; apply steps_ret].
  apply steps_Promise_all, specialization_steps.
Qed.

Lemma stage3_steps (params : Params) (previous : IterationResult) :
  steps R (runIteration3_FinalVerification env params previous).
Proof.
  unfold runIteration3_FinalVerification.
  apply steps_bind; [|intros ?; apply steps_ret].
  by apply (refinement_steps CrossValidation params previous).
Qed.

Hypothesis record_steps :
  ∀ name success confidence t, steps R (recordAgentExecution env name success confidence t).

Lemma stage1_steps (params : Params) :
  steps R (runIteration1_BaseAnalysis env params).
Proof.
  unfold runIteration1_BaseAnalysis.
  apply steps_bind; [|intros ?; apply steps_ret].
  apply steps_Promise_all.
  repeat apply List.Forall_cons; [| |apply steps_ret|apply List.Forall_nil].
  - unfold runClassificationAgent. cbv zeta.
    apply steps_bind; [apply create_steps|]. intros [error|text cleanText json].
    + apply steps_bind; [apply record_steps|intros ?; apply steps_ret].
    + apply steps_bind; [apply log_steps|]. intros ?.
      apply steps_bind; [apply record_steps|intros ?; apply steps_ret].
  - unfold runStructuralExtractionAgent. cbv zeta.
    apply steps_bind; [apply create_steps|]. intros [error|text cleanText [parsed|]];
      (apply steps_bind; [apply record_steps|intros ?; apply steps_ret]).
Qed.

Lemma runIterations_steps (params : Params) : steps R (runIterations env params).
Proof.
  unfold runIterations.
  apply steps_bind; [apply stage1_steps|]. intros it1.
  destruct (_ && _); [|apply steps_ret].
  apply steps_bind; [apply stage2_steps|]. intros it2.
  destruct (_ && _); [|apply steps_ret].
  apply steps_bind; [apply stage3_steps|]. intros it3. apply steps_ret.
Qed.

End Steps.

(** ** The call logs *)

Lemma length_substring_0 (n : nat) (s : string) :
  String.length (String.substring 0 n s) = min n (String.length s).
Proof.
  revert s. induction n as [|n IH]; intros [|c s]; simpl; try done.
  by rewrite IH.
Qed.

Lemma substring_0_short (n : nat) (s : string) :
  (String.length s ≤ n)%nat → String.substring 0 n s = s.
Proof.
  revert s. induction n as [|n IH]; intros [|c s] Hlen; simpl in *; try done; try lia.
  rewrite IH; [done|lia].
Qed.

Lemma length_string_app (s1 s2 : string) :
  String.length (s1 ++ s2)%string = (String.length s1 + String.length s2)%nat.
Proof. induction s1 as [|c s1 IH]; simpl; [done|]. by rewrite IH. Qed.

Lemma string_app_empty (s : string) : (s ++ "")%string = s.
Proof.
  induction s as [|c s IH]; [done|].
  change (String c s ++ "")%string with (String c (s ++ "")%string). by rewrite IH.
Qed.

Lemma logged_response_length (response : string) :
  (String.length
     (String.substring 0 1000 response ++
      (if (1000 <? String.length response)%nat then "..." else ""))%string
   ≤ 1003)%nat.
Proof.
  rewrite length_string_app, length_substring_0.
  destruct (1000 <? String.length response)%nat; simpl String.length; lia.
Qed.

Lemma runIterations_extends_logs (env : Environment) (params : Params) :
  steps logsExtended (runIterations env params).
Proof.
  apply runIterations_steps; unfold logsExtended.
  - done.
  - intros w1 w2 w3 H12 H23. by etrans.
  - by intros name w.
  - intros name response t w. simpl. by apply prefix_app_r.
  - by intros name success confidence t w.
Qed.

Lemma runIterations_keeps_logs_bounded (env : Environment) (params : Params) :
  steps keepsLogsBounded (runIterations env params).
Proof.
  apply runIterations_steps; unfold keepsLogsBounded, logsBounded.
  - done.
  - intros w1 w2 w3 H12 H23 H1. by apply H23, H12.
  - by intros name w.
  - intros name response t w Hw. simpl. apply Forall_app. split; [done|].
    apply List.Forall_cons; [|apply List.Forall_nil]. apply logged_response_length.
  - by intros name success confidence t w.
Qed.

(** X22.  The controller never clears its call logs: the logs a run returns
    begin with all the logs that were there before the run, so a second run
    on the same controller returns the logs of the first again. *)
Theorem call_logs_are_never_cleared
    (env : Environment) (params : Params) (w : World) :
  apiCallLogs w `prefix_of` resultApiCallLogs (fst (processDocumentOrchestrated env params w))
  ∧ apiCallLogs (snd (processDocumentOrchestrated env params w))
    = resultApiCallLogs (fst (processDocumentOrchestrated env params w)).
Proof.
  destruct (run_result env params w) as [-> ->]. simpl. split; [|done].
  apply runIterations_extends_logs.
Qed.

(** X23.  A logged response is the response itself when it has at most 1000
    characters, and otherwise its first 1000 characters followed by three
    dots; so, when the logs held no longer entry before, no entry of the
    logs a run returns has a response of more than 1003 characters. *)
Theorem logged_responses_are_cut_to_1000_characters :
  (∀ name response t w,
     ∃ entry, apiCallLogs (snd (logApiCall name response t w))
              = (apiCallLogs w ++ [entry])%list
       ∧ ((String.length response ≤ 1000)%nat → log_response entry = response)
       ∧ ((1000 < String.length response)%nat →
          log_response entry = (String.substring 0 1000 response ++ "...")%string
          ∧ String.length (log_response entry) = 1003%nat))
  ∧ (∀ env params w, logsBounded w →
       Forall (λ entry, (String.length (log_response entry) ≤ 1003)%nat)
         (resultApiCallLogs (fst (processDocumentOrchestrated env params w)))).
Proof.
  split.
  - intros name response t w. eexists. split; [reflexivity|]. simpl. split.
    + intros Hlen. rewrite substring_0_short by done.
      replace (1000 <? String.length response)%nat with false
        by (symmetry; apply Nat.ltb_ge; lia).
      apply string_app_empty.
    + intros Hlen.
      replace (1000 <? String.length response)%nat with true
        by (symmetry; apply Nat.ltb_lt; lia).
      split; [done|]. rewrite length_string_app, length_substring_0.
      simpl String.length. lia.
  - intros env params w Hw. destruct (run_result env params w) as [-> _]. simpl.
    by apply (runIterations_keeps_logs_bounded env params w).
Qed.

(** ** What a run records in the registry *)

Lemma stage1_records (env : Environment) (params : Params) (w : World) :
  ∃ r1 r2 r3,
    agentResults (fst (runIteration1_BaseAnalysis env params w)) = [r1; r2; r3]
    ∧ manager (snd (runIteration1_BaseAnalysis env params w))
      = AgentManager.recordAgentExecution
          (AgentManager.recordAgentExecution (manager w) "classification_agent"
             (bool_decide (conflicts r1 = None)) (confidence r1)
             (elapsed env "classification_agent") (now env))
          "structural_extraction_agent"
          (bool_decide (conflicts r2 = None)) (confidence r2)
          (elapsed env "structural_extraction_agent") (now env).
Proof.
  unfold runIteration1_BaseAnalysis, Promise_all, runClassificationAgent,
    runStructuralExtractionAgent, runMetadataAgent. step.
  destruct (complete env "classification_agent" _) as [?|? ? ?]; simpl;
    destruct (complete env "structural_extraction_agent" _) as [?|? ? [?|]]; simpl;
    by eexists _, _, _.
Qed.

Lemma refinement_leaves_registry (env : Environment) (params : Params)
    (previous : IterationResult) :
  steps registryUntouched (runIteration2_SpecializedRefinement env params previous)
  ∧ steps registryUntouched (runIteration3_FinalVerification env params previous).
Proof.
  split; [apply stage2_steps|apply stage3_steps]; unfold registryUntouched;
    try done; try (intros w1 w2 w3 H12 H23; by rewrite H23).
Qed.

(** X24.  A run records in the registry one execution of the classification
    agent and one of the structural agent, each as a success exactly when
    its Stage-1 result carries no conflict marker and with the confidence
    of that result, then one history entry with the metrics the run
    reports; it records no execution of any other agent. *)
Theorem run_records_stage1_agents_and_one_history_entry
    (env : Environment) (params : Params) (w : World) :
  let run := processDocumentOrchestrated env params w in
  ∃ it1 rest r1 r2 r3,
    iterations (fst run) = it1 :: rest
    ∧ agentResults it1 = [r1; r2; r3]
    ∧ manager (snd run)
      = AgentManager.recordSystemExecution
          (AgentManager.recordAgentExecution
             (AgentManager.recordAgentExecution (manager w) "classification_agent"
                (bool_decide (conflicts r1 = None)) (confidence r1)
                (elapsed env "classification_agent") (now env))
             "structural_extraction_agent"
             (bool_decide (conflicts r2 = None)) (confidence r2)
             (elapsed env "structural_extraction_agent") (now env))
          {| AgentManager.timestamp := now env;
             AgentManager.documentId := documentId params;
             AgentManager.agentsUsed := agentsInvolved (processingMetrics (fst run));
             AgentManager.finalConfidence := finalConfidence (processingMetrics (fst run));
             AgentManager.iterationsUsed := iterationsUsed (processingMetrics (fst run));
             AgentManager.totalTime := runTime env |}.
Proof.
  cbv zeta. destruct (run_result env params w) as [-> ->].
  cbn [iterations processingMetrics agentsInvolved finalConfidence iterationsUsed
       manager].
  destruct (stage1_records env params w) as (r1 & r2 & r3 & Hres & Hmgr).
  rewrite runIterations_cases. cbv zeta.
  set (s1 := runIteration1_BaseAnalysis env params w) in *.
  destruct (refinement_leaves_registry env params (fst s1)) as [H2 _].
  specialize (H2 (snd s1)). unfold registryUntouched in H2.
  set (s2 := runIteration2_SpecializedRefinement env params (fst s1) (snd s1)) in *.
  destruct (refinement_leaves_registry env params (fst s2)) as [_ H3].
  specialize (H3 (snd s2)). unfold registryUntouched in H3.
  set (s3 := runIteration3_FinalVerification env params (fst s2) (snd s2)) in *.
  clearbody s3. clearbody s2. clearbody s1.
  destruct (_ && _); [destruct (_ && _)|]; cbn [fst snd];
    eexists _, _, r1, r2, r3; (split; [reflexivity|]); (split; [done|]);
    rewrite ?H3, ?H2, Hmgr; reflexivity.
Qed.
